(** * binstar_client: the REST client [Binstar] of [binstar_client/__init__.py]

    A shallow embedding of the client class: the constructor, the response
    check [_check_response], the delete operations, [download] and the three
    phase [upload].  Python values are an inductive type, dictionaries are
    finite maps, and every method is a computation in a small state and
    exception monad whose state records what the method did to the outside
    world (HTTP requests, warnings, log lines, calls to the hashing and
    multipart helpers). *)

From Stdlib Require Import ZArith String Ascii DecimalString List.
From stdpp Require Import gmap strings list fin_maps.

Open Scope string_scope.
Open Scope Z_scope.

(** ** Python values *)

(** The values that travel through the client: JSON documents returned by
    [res.json()], the payloads handed to [jencode], and the [attrs] argument
    of [upload]. *)
#[warnings="-register-all"]
Inductive pyval : Type :=
  | PNone
  | PBool (b : bool)
  | PInt (z : Z)
  | PStr (s : string)
  | PList (l : list pyval)
  | PTuple (l : list pyval)
  | PDict (d : gmap string pyval).

(** [isinstance(v, dict)] *)
Definition is_dict (v : pyval) : bool :=
  match v with PDict _ => true | _ => false end.

(** Truth value of an optional string argument, as tested by [if token:],
    [if basename:], [if md5:]: [None] and the empty string are false. *)
Definition truthy (s : option string) : bool :=
  match s with
  | None => false
  | Some EmptyString => false
  | Some _ => true
  end.

(** [str(n)] for an integer. *)
Definition str_of_int (z : Z) : string := NilZero.string_of_int (Z.to_int z).

(** [s.endswith(suffix)] *)
Definition endswith (s suffix : string) : bool :=
  let n := String.length s in
  let k := String.length suffix in
  (k <=? n)%nat && String.eqb (substring (n - k) k s) suffix.

(** [s[:-1]] *)
Definition drop_last (s : string) : string :=
  substring 0 (String.length s - 1) s.

(** The line feed of ['...\n']. *)
Definition LF : string := String (ascii_of_nat 10) EmptyString.

(** ** Exceptions *)

(** The error classes of [binstar_client.errors] that [_check_response]
    chooses from; [BinstarError] is the base (generic) class. *)
Inductive ErrCls : Type :=
  | BinstarError
  | Unauthorized
  | NotFound
  | Conflict
  | ServerError.

Inductive exn : Type :=
  | ApiError (cls : ErrCls) (msg : pyval) (status_code : Z)
      (* [ErrCls(msg, res.status_code)] *)
  | TypeError (msg : string)
  | KeyError (key : string)
  | AttributeError (attr : string)
  | ValueError (msg : string)
  | UnboundLocalError (var : string)
  | IOError (msg : string)
  | RequestException (msg : string).
      (* raised by the transport before any status is known *)

Inductive outcome (A : Type) : Type :=
  | Ok (a : A)
  | Raise (e : exn).
Arguments Ok {A} a.
Arguments Raise {A} e.

(** ** Requests, responses, files *)

Record request : Type := mkRequest {
  via_session : bool;            (* [self.session.X] or module level [requests.X] *)
  method : string;
  url : pyval;
  data : option string;
  headers : gmap string string;   (* the [headers=] keyword *)
  allow_redirects : bool;
  stream : bool;
  timeout : option Z;
  verify : option bool            (* the [verify=] keyword *)
}.

(** What the client reads of a [requests.Response].  Header names are kept
    in lower case ([res.headers] is case insensitive).  [res_json] is [None]
    when [res.json()] raises. *)
Record response : Type := mkResponse {
  status_code : Z;
  res_headers : gmap string string;
  res_json : option pyval;
  text : string;
  request_method : string;       (* [res.request.method] *)
  request_url : string           (* [res.request.url] *)
}.

(** The file like object [fd] handed to [upload]. *)
Record file : Type := mkFile {
  content : list Byte.byte;
  pos : Z;
  seekable : bool
}.

(** ** The observable world *)

Inductive event : Type :=
  | EvHttp (rq : request) (rs : outcome response)
  | EvWarn (msg : string)                       (* [warnings.warn] *)
  | EvLog (msg : string)                        (* [log.info] *)
  | EvHash (size : option Z)                    (* [compute_hash(fd, size=size)] *)
  | EvMultipart (fields : pyval) (basename : string).
                                                (* [stream_multipart(fields, files=...)] *)

Record world : Type := mkWorld {
  served : nat;          (* number of HTTP requests issued so far *)
  trace : list event;    (* everything done so far, oldest first *)
  fd : file              (* the state of the file object *)
}.

(** What a trace shows of each kind of effect. *)
Definition requests_sent (t : list event) : list request :=
  omap (fun e => match e with EvHttp rq _ => Some rq | _ => None end) t.

Definition hash_calls (t : list event) : list (option Z) :=
  omap (fun e => match e with EvHash sz => Some sz | _ => None end) t.

Definition encoder_calls (t : list event) : list (pyval * string) :=
  omap (fun e => match e with EvMultipart f b => Some (f, b) | _ => None end) t.

Definition log_lines (t : list event) : list string :=
  omap (fun e => match e with EvLog m => Some m | _ => None end) t.

(** The encoder calls made between world [w] and the later world [w']. *)
Definition encoded_during (w w' : world) : list (pyval * string) :=
  drop (length (encoder_calls (trace w))) (encoder_calls (trace w')).

(** ** Collaborators that live outside [__init__.py] *)

(** [utils], [utils.http_codes], [requests_ext], [_version] and the network
    are not part of the module; the client is parametrised by them.  [net n]
    is what the transport answers to the [n]-th request that is sent: a
    response, or an exception of the transport.  [pv], [jencode] and
    [stream_multipart] are taken to return normally; [compute_hash] may
    raise, and leaves the file object in a state of its choice. *)
Class Externals : Type := {
  version : Type;
  pv : string -> version;
  version_gt : version -> version -> bool;
  __version__ : string;
  STATUS_CODES : gmap Z (string * string);
  jencode : pyval -> string * gmap string string;
  compute_hash : file -> option Z -> outcome (string * string * Z) * file;
  stream_multipart : pyval -> string -> file -> string * gmap string string;
  default_headers : gmap string string;
  net : nat -> outcome response
}.

(** ** The monad *)

Definition M (A : Type) : Type := world -> outcome A * world.

Definition ret {A} (a : A) : M A := fun w => (Ok a, w).

Definition raise {A} (e : exn) : M A := fun w => (Raise e, w).

Definition bind {A B} (m : M A) (k : A -> M B) : M B :=
  fun w =>
    match m w with
    | (Ok a, w') => k a w'
    | (Raise e, w') => (Raise e, w')
    end.

Declare Scope py_scope.
Delimit Scope py_scope with py.
Notation "x <- m ;; k" := (bind m (fun x => k))
  (at level 100, m at next level, right associativity) : py_scope.
Notation "m ;; k" := (bind m (fun _ => k))
  (at level 100, right associativity) : py_scope.
Notation "'let*' p := m 'in' k" := (bind m (fun x => let 'p := x in k))
  (at level 10, p pattern, m at level 100, k at level 200) : py_scope.
Open Scope py_scope.

Definition emit (ev : event) : M unit :=
  fun w => (Ok tt, mkWorld (served w) (trace w ++ [ev]) (fd w)).

(** Lift a pure result that may be an exception. *)
Definition lift {A} (o : outcome A) : M A := fun w => (o, w).

(** ** Dictionary and item access on values *)

(** [v[key]] for a string key. *)
Definition getitem (v : pyval) (key : string) : outcome pyval :=
  match v with
  | PDict d =>
      match d !! key with
      | Some x => Ok x
      | None => Raise (KeyError key)
      end
  | PNone | PBool _ | PInt _ => Raise (TypeError "object is not subscriptable")
  | PStr _ => Raise (TypeError "string indices must be integers")
  | PList _ | PTuple _ => Raise (TypeError "indices must be integers")
  end.

(** [v[key] = x] for a string key. *)
Definition setitem (v : pyval) (key : string) (x : pyval) : outcome pyval :=
  match v with
  | PDict d => Ok (PDict (<[key := x]> d))
  | PList _ => Raise (TypeError "list indices must be integers")
  | _ => Raise (TypeError "object does not support item assignment")
  end.

(** [v.get(key, dflt)] *)
Definition dict_get (v : pyval) (key : string) (dflt : pyval) : outcome pyval :=
  match v with
  | PDict d => Ok (default dflt (d !! key))
  | _ => Raise (AttributeError "get")
  end.

(** ** Truth values and formatting *)

(** [bool(v)], the test behind [v or {}]. *)
Definition truth (v : pyval) : bool :=
  match v with
  | PNone => false
  | PBool b => b
  | PInt z => negb (z =? 0)
  | PStr s => negb (String.eqb s "")
  | PList l | PTuple l => match l with [] => false | _ => true end
  | PDict d => match map_to_list d with [] => false | _ => true end
  end.

(** ['%s' % v] for an argument that is a string or [None]. *)
Definition percent_s (v : option string) : string :=
  match v with
  | Some s => s
  | None => "None"
  end.

(** ** File operations *)

Definition fd_tell : M Z :=
  fun w => if seekable (fd w) then (Ok (pos (fd w)), w)
           else (Raise (IOError "tell"), w).

Definition fd_seek (p : Z) : M unit :=
  fun w => if seekable (fd w)
           then (Ok tt, mkWorld (served w) (trace w)
                          (mkFile (content (fd w)) p true))
           else (Raise (IOError "seek"), w).

(** [fd.seek(0, os.SEEK_END)] *)
Definition fd_seek_end : M unit :=
  fun w => if seekable (fd w)
           then (Ok tt, mkWorld (served w) (trace w)
                          (mkFile (content (fd w))
                                  (Z.of_nat (length (content (fd w)))) true))
           else (Raise (IOError "seek"), w).

Section Client.
Context `{E : Externals}.

(** Send a request: the transport answers, the exchange is recorded. *)
Definition http (rq : request) : M response :=
  fun w =>
    let rs := net (served w) in
    (rs, mkWorld (S (served w)) (trace w ++ [EvHttp rq rs]) (fd w)).

(** [compute_hash(fd, size=size)] from [utils]. *)
Definition call_compute_hash (size : option Z) : M (string * string * Z) :=
  fun w =>
    let '(r, f') := compute_hash (fd w) size in
    (r, mkWorld (served w) (trace w ++ [EvHash size]) f').

(** [stream_multipart(fields, files={'file': (basename, fd)}, callback=callback)]
    from [requests_ext]; the callback is only handed on to the encoder. *)
Definition call_stream_multipart (fields : pyval) (basename : string)
  : M (string * gmap string string) :=
  fun w =>
    (Ok (stream_multipart fields basename (fd w)),
     mkWorld (served w) (trace w ++ [EvMultipart fields basename]) (fd w)).

(** [res.json()] *)
Definition json (res : response) : M pyval :=
  match res_json res with
  | Some v => ret v
  | None => raise (ValueError "No JSON object could be decoded")
  end.

(** Requests through [self.session] and through the [requests] module. *)
Definition session_request (meth : string) (u : string) (d : option string)
    (h : gmap string string) (redirects : bool) : request :=
  mkRequest true meth (PStr u) d h redirects false None None.

Definition session_get (u : string) : M response :=
  http (session_request "GET" u None ∅ true).
Definition session_delete (u : string) : M response :=
  http (session_request "DELETE" u None ∅ true).
Definition session_post (u : string) (d : string) (h : gmap string string)
  : M response :=
  http (session_request "POST" u (Some d) h true).

(** ** The client object *)

Record Binstar : Type := mkBinstar {
  token : option string;
  domain : string;
  session_headers : gmap string string;
  session_verify : bool
}.

(** [Binstar.__init__] *)
Definition __init__ (token : option string) (domain : string) (verify : bool)
  : Binstar :=
  let h := <["x-binstar-api-version" := __version__]> default_headers in
  let h :=
    if truthy token then
      <["User-Agent" := "Binstar/" ++ __version__ ++ " (+https://anaconda.org)"]>
        (<["Authorization" := "token " ++ default "" token]> h)
    else h in
  let domain := if endswith domain "/" then drop_last domain else domain in
  mkBinstar token domain h verify.

(** [Binstar._check_response] *)
Definition _check_response (res : response) (allowed : list Z) : M unit :=
  let api_version :=
    default "0.2.1" (res_headers res !! "x-binstar-api-version") in
  (if version_gt (pv api_version) (pv __version__) then
     emit (EvWarn ("The api server is running the binstar-api version "
                   ++ api_version ++ ". you are using " ++ __version__ ++ LF
                   ++ "Please update your client with pip install -U binstar or conda update binstar"))
   else ret tt) ;;
  if negb (bool_decide (status_code res ∈ allowed)) then
    let '(short, long) :=
      default ("?", "Undefined error") (STATUS_CODES !! status_code res) in
    let msg :=
      PStr (short ++ ": " ++ long ++ " ([" ++ request_method res ++ "] "
            ++ request_url res ++ " -> " ++ str_of_int (status_code res) ++ ")") in
    msg <- match res_json res with
           | None => ret msg
           | Some data => lift (dict_get data "error" msg)
           end ;;
    let ErrCls :=
      if status_code res =? 401 then Unauthorized
      else if status_code res =? 404 then NotFound
      else if status_code res =? 409 then Conflict
      else if status_code res >=? 500 then ServerError
      else BinstarError in
    raise (ApiError ErrCls msg (status_code res))
  else ret tt.

(** The class chosen by the [if]/[elif] chain of [_check_response] and the
    message it synthesises, named so that they can be talked about. *)
Definition error_class (status : Z) : ErrCls :=
  if status =? 401 then Unauthorized
  else if status =? 404 then NotFound
  else if status =? 409 then Conflict
  else if status >=? 500 then ServerError
  else BinstarError.

Definition synthesized (res : response) : string :=
  let '(short, long) :=
    default ("?", "Undefined error") (STATUS_CODES !! status_code res) in
  short ++ ": " ++ long ++ " ([" ++ request_method res ++ "] "
  ++ request_url res ++ " -> " ++ str_of_int (status_code res) ++ ")".

(** [w'] differs from [w] by warnings only. *)
Definition only_warns (w w' : world) : Prop :=
  served w' = served w /\ fd w' = fd w
  /\ exists msgs : list string, trace w' = (trace w ++ map EvWarn msgs)%list.

(** ** Delete operations *)

(** [Binstar.remove_authentication] *)
Definition remove_authentication (self : Binstar) (auth_name : option string)
  : M pyval :=
  let url :=
    if truthy auth_name
    then domain self ++ "/authentications/name/" ++ default "" auth_name
    else domain self ++ "/authentications" in
  res <- session_delete url ;;
  _check_response res [201] ;;
  ret PNone.

(** [Binstar.remove_package] *)
Definition remove_package (self : Binstar) (username package_name : string)
  : M pyval :=
  let url := domain self ++ "/package/" ++ username ++ "/" ++ package_name in
  res <- session_delete url ;;
  _check_response res [201] ;;
  ret PNone.

(** [Binstar.remove_release] *)
Definition remove_release (self : Binstar)
    (username package_name version : string) : M pyval :=
  let url := domain self ++ "/release/" ++ username ++ "/" ++ package_name
             ++ "/" ++ version in
  res <- session_delete url ;;
  _check_response res [201] ;;
  ret PNone.

(** [Binstar.remove_dist] *)
Definition remove_dist (self : Binstar) (login package_name release : string)
    (basename _id : option string) : M pyval :=
  url <- (if truthy basename then
            ret (domain self ++ "/dist/" ++ login ++ "/" ++ package_name ++ "/"
                 ++ release ++ "/" ++ default "" basename)
          else if truthy _id then
            ret (domain self ++ "/dist/" ++ login ++ "/" ++ package_name ++ "/"
                 ++ release ++ "/-/" ++ default "" _id)
          else
            raise (TypeError
              "method remove_dist expects either 'basename' or '_id' arguments")) ;;
  res <- session_delete url ;;
  _check_response res [200] ;;
  json res.

(** ** Download *)

(** [Binstar.download]; the result is [None] or the response handle [res2]. *)
Definition download (self : Binstar)
    (login package_name release basename : string) (md5 : option string)
  : M (option response) :=
  let url := domain self ++ "/download/" ++ login ++ "/" ++ package_name ++ "/"
             ++ release ++ "/" ++ basename in
  let headers : gmap string string :=
    if truthy md5 then {["ETag" := default "" md5]} else ∅ in
  res <- http (session_request "GET" url None headers false) ;;
  _check_response res [302; 304] ;;
  if status_code res =? 304 then ret None
  else if status_code res =? 302 then
    location <- match res_headers res !! "location" with
                | Some l => ret l
                | None => raise (KeyError "location")
                end ;;
    res2 <- http (mkRequest false "GET" (PStr location) None ∅ true true
                            None None) ;;
    ret (Some res2)
  else ret None.

(** ** Upload *)

(** [Binstar.upload].  The file object [fd] is the one of the world; the
    local variable [b64md5] is [None] while it is unbound.  In the code
    [s3data] is the very dictionary [obj['form_data']] and is updated in
    place; [obj] is read again only at ['dist_id'], so updating a copy gives
    the same run. *)
Definition upload (self : Binstar)
    (login package_name release basename : string)
    (distribution_type description : pyval)
    (md5 : option string) (size : option Z)
    (dependencies attrs channels : pyval) : M pyval :=
  let url := domain self ++ "/stage/" ++ login ++ "/" ++ package_name ++ "/"
             ++ release ++ "/" ++ basename in
  let attrs := match attrs with PNone => PDict ∅ | _ => attrs end in
  if negb (is_dict attrs) then
    raise (TypeError "argument attrs must be a dictionary")
  else
  let payload :=
    PDict (list_to_map [("distribution_type", distribution_type);
                        ("description", description);
                        ("attrs", attrs);
                        ("dependencies", dependencies);
                        ("channels", channels)]) in
  let '(data, headers) := jencode payload in
  res <- session_post url data headers ;;
  _check_response res [200] ;;
  obj <- json res ;;
  s3url <- lift (getitem obj "post_url") ;;
  s3data <- lift (getitem obj "form_data") ;;
  let* (b64md5, size) :=
    match md5 with
    | None =>
        let* (_hexmd5, b64md5, size) := call_compute_hash size in
        ret (Some b64md5, size)
    | Some _ =>
        match size with
        | None =>
            spos <- fd_tell ;;
            fd_seek_end ;;
            epos <- fd_tell ;;
            fd_seek spos ;;
            ret (None, epos - spos)
        | Some size => ret (None, size)
        end
    end in
  s3data <- lift (setitem s3data "Content-Length" (PInt size)) ;;
  b64md5 <- match b64md5 with
            | Some v => ret v
            | None => raise (UnboundLocalError "b64md5")
            end ;;
  s3data <- lift (setitem s3data "Content-MD5" (PStr b64md5)) ;;
  let* (data_stream, headers) := call_stream_multipart s3data basename in
  s3res <- http (mkRequest false "POST" s3url (Some data_stream) headers
                           true false (Some (10 * 60 * 60))
                           (Some (session_verify self))) ;;
  if negb (status_code s3res =? 201) then
    emit (EvLog (text s3res)) ;;
    emit (EvLog "") ;;
    emit (EvLog "") ;;
    raise (ApiError BinstarError (PStr "Error uploading package")
                    (status_code s3res))
  else
  let url := domain self ++ "/commit/" ++ login ++ "/" ++ package_name ++ "/"
             ++ release ++ "/" ++ basename in
  dist_id <- lift (getitem obj "dist_id") ;;
  let payload := PDict {["dist_id" := dist_id]} in
  let '(data, headers) := jencode payload in
  res <- session_post url data headers ;;
  _check_response res [200] ;;
  json res.

(** ** Read operations *)

(** [Binstar.list_scopes]: the one call that goes through the [requests]
    module and not through the session. *)
Definition list_scopes (self : Binstar) : M pyval :=
  let url := domain self ++ "/scopes" in
  res <- http (mkRequest false "GET" (PStr url) None ∅ true false None None) ;;
  _check_response res [200] ;;
  json res.

(** [Binstar.authentication] *)
Definition authentication (self : Binstar) : M pyval :=
  let url := domain self ++ "/authentication" in
  res <- session_get url ;;
  _check_response res [200] ;;
  json res.

(** [Binstar.authentications] *)
Definition authentications (self : Binstar) : M pyval :=
  let url := domain self ++ "/authentications" in
  res <- session_get url ;;
  _check_response res [200] ;;
  json res.

(** [Binstar.user] *)
Definition user (self : Binstar) (login : option string) : M pyval :=
  let url :=
    if truthy login then domain self ++ "/user/" ++ default "" login
    else domain self ++ "/user" in
  res <- http (mkRequest true "GET" (PStr url) None ∅ true false None
                         (Some (session_verify self))) ;;
  _check_response res [200] ;;
  json res.

(** [Binstar.user_packages] *)
Definition user_packages (self : Binstar) (login : option string) : M pyval :=
  let url :=
    if truthy login then domain self ++ "/packages/" ++ default "" login
    else domain self ++ "/packages" in
  res <- session_get url ;;
  _check_response res [200] ;;
  json res.

(** [Binstar.package] *)
Definition package (self : Binstar) (login package_name : string) : M pyval :=
  let url := domain self ++ "/package/" ++ login ++ "/" ++ package_name in
  res <- session_get url ;;
  _check_response res [200] ;;
  json res.

(** [Binstar.package_collaborators] *)
Definition package_collaborators (self : Binstar) (owner package_name : string)
  : M pyval :=
  let url := domain self ++ "/packages/" ++ owner ++ "/" ++ package_name
             ++ "/collaborators" in
  res <- session_get url ;;
  _check_response res [200] ;;
  json res.

(** [Binstar.release] *)
Definition release (self : Binstar) (login package_name version : string)
  : M pyval :=
  let url := domain self ++ "/release/" ++ login ++ "/" ++ package_name ++ "/"
             ++ version in
  res <- session_get url ;;
  _check_response res [200] ;;
  json res.

(** [Binstar.distribution]; [basename] defaults to [None] and is formatted
    into the URL as it is. *)
Definition distribution (self : Binstar) (login package_name release : string)
    (basename : option string) : M pyval :=
  let url := domain self ++ "/dist/" ++ login ++ "/" ++ package_name ++ "/"
             ++ release ++ "/" ++ percent_s basename in
  res <- session_get url ;;
  _check_response res [200] ;;
  json res.

(** ** Collaborators *)

(** [Binstar.package_add_collaborator] *)
Definition package_add_collaborator (self : Binstar)
    (owner package_name collaborator : string) : M pyval :=
  let url := domain self ++ "/packages/" ++ owner ++ "/" ++ package_name
             ++ "/collaborators/" ++ collaborator in
  res <- http (session_request "PUT" url None ∅ true) ;;
  _check_response res [201] ;;
  ret PNone.

(** [Binstar.package_remove_collaborator] *)
Definition package_remove_collaborator (self : Binstar)
    (owner package_name collaborator : string) : M pyval :=
  let url := domain self ++ "/packages/" ++ owner ++ "/" ++ package_name
             ++ "/collaborators/" ++ collaborator in
  res <- session_delete url ;;
  _check_response res [201] ;;
  ret PNone.

(** ** Creating packages and releases *)

(** [Binstar.add_package].  A caller's non-empty dictionary [attrs] is the
    very object that receives ['summary'] and ['license']; the run of the
    method is the same on a copy. *)
Definition add_package (self : Binstar) (login package_name : string)
    (summary license public license_url attrs : pyval) : M pyval :=
  let url := domain self ++ "/package/" ++ login ++ "/" ++ package_name in
  let attrs := if truth attrs then attrs else PDict ∅ in
  attrs <- lift (setitem attrs "summary" summary) ;;
  attrs <- lift (setitem attrs "license"
                   (PDict (list_to_map [("name", license);
                                        ("url", license_url)]))) ;;
  let payload :=
    PDict (list_to_map
             [("public", PBool (truth public));
              ("publish", PBool false);
              ("public_attrs", if truth attrs then attrs else PDict ∅)]) in
  let '(data, headers) := jencode payload in
  res <- session_post url data headers ;;
  _check_response res [200] ;;
  json res.

(** [Binstar.add_release] *)
Definition add_release (self : Binstar) (login package_name version : string)
    (requirements announce description : pyval) : M pyval :=
  let url := domain self ++ "/release/" ++ login ++ "/" ++ package_name ++ "/"
             ++ version in
  let payload :=
    PDict (list_to_map [("requirements", requirements);
                        ("announce", announce);
                        ("description", description)]) in
  let '(data, headers) := jencode payload in
  res <- session_post url data headers ;;
  _check_response res [200] ;;
  json res.

(** ** Shapes of a run, used to state what the methods above do *)

(** The run [m] from [w] is one exchange: the exception of the transport
    comes out as it is; an answer with the status [ok] gives [result]; an
    answer with another status, whose body is not JSON or is a JSON object,
    raises the error of the class of the status.  Exactly one request is
    sent in every case. *)
Definition one_exchange (ok : Z) (result : response -> outcome pyval)
    (m : M pyval) (w : world) : Prop :=
  served (snd (m w)) = S (served w)
  /\ length (requests_sent (trace (snd (m w))))
     = S (length (requests_sent (trace w)))
  /\ match net (served w) with
     | Raise e => fst (m w) = Raise e
     | Ok res =>
         (status_code res = ok -> fst (m w) = result res)
         /\ (status_code res <> ok ->
             (forall v, res_json res = Some v -> is_dict v = true) ->
             exists msg,
               fst (m w) = Raise (ApiError (error_class (status_code res)) msg
                                           (status_code res)))
     end.

(** [res.json()] as a result. *)
Definition json_body (res : response) : outcome pyval :=
  match res_json res with
  | Some v => Ok v
  | None => Raise (ValueError "No JSON object could be decoded")
  end.

End Client.

(** ** A concrete environment for examples *)

Module Demo.

(** A sample of the table of [utils.http_codes]. *)
Definition status_codes : gmap Z (string * string) :=
  list_to_map
    [(400, ("Bad Request", "Bad request syntax or unsupported method"));
     (401, ("Unauthorized", "No permission -- see authorization schemes"));
     (404, ("Not Found", "Nothing matches the given URI"));
     (409, ("Conflict", "Request conflict"));
     (500, ("Internal Server Error", "Server got itself in trouble"))].

(** The transport replays a script, one answer per request. *)
Definition scripted (script : list (outcome response)) (n : nat)
  : outcome response :=
  nth n script (Raise (RequestException "connection refused")).

(** Digest and size of what is left of the stream; the stream is put back
    where it was.  The digest shown is the one of the empty input. *)
Definition hash_stub (f : file) (size : option Z)
  : outcome (string * string * Z) * file :=
  (Ok ("d41d8cd98f00b204e9800998ecf8427e", "1B2M2Y8AsgTpgAmY7PhCfg==",
       Z.of_nat (length (content f)) - pos f), f).

Definition env (script : list (outcome response)) : Externals := {|
  version := string;
  pv := fun s => s;
  version_gt := fun a b => match String.compare a b with Gt => true | _ => false end;
  __version__ := "0.8";
  STATUS_CODES := status_codes;
  jencode := fun _ => ("{}", {["Content-Type" := "application/json"]});
  compute_hash := hash_stub;
  stream_multipart := fun _ _ _ => ("", {["Content-Type" := "multipart/form-data"]});
  default_headers := ∅;
  net := scripted script
|}.

(** A fresh world with an empty, seekable file. *)
Definition w0 : world := mkWorld 0 [] (mkFile [] 0 true).

Definition json_response (st : Z) (v : pyval) : response :=
  mkResponse st ∅ (Some v) "" "POST" "https://api.anaconda.org/x".

Definition text_response (st : Z) (body : string) : response :=
  mkResponse st ∅ None body "GET" "https://api.anaconda.org/x".

(** A well formed answer of the stage endpoint. *)
Definition staged (form : gmap string pyval) : response :=
  json_response 200
    (PDict (list_to_map [("post_url", PStr "https://s3/x");
                         ("form_data", PDict form);
                         ("dist_id", PStr "abc")])).

Definition client : Binstar :=
  __init__ (E := env []) None "https://api.anaconda.org" true.

(** [client.upload("u", "p", "1.0", "p-1.0.tar.bz2", fd, "conda", md5=...,
    size=...)] against a scripted server. *)
Definition upload_with (script : list (outcome response))
    (md5 : option string) (size : option Z) (attrs : pyval)
  : outcome pyval * world :=
  upload (E := env script) client "u" "p" "1.0" "p-1.0.tar.bz2"
         (PStr "conda") (PStr "") md5 size PNone attrs
         (PTuple [PStr "main"]) w0.

(** [client.download("u", "p", "1.0", "p-1.0.tar.bz2", md5=...)] *)
Definition download_with (script : list (outcome response))
    (md5 : option string) : outcome (option response) * world :=
  download (E := env script) client "u" "p" "1.0" "p-1.0.tar.bz2" md5 w0.

(** A form as the storage backend hands it out. *)
Definition form : gmap string pyval :=
  list_to_map [("key", PStr "dists/abc"); ("acl", PStr "private");
               ("Content-Length", PStr "X")].

(** Error answers. *)
Definition conflict_list : response :=
  mkResponse 409 ∅ (Some (PList [PStr "already staged"])) ""
             "POST" "https://api.anaconda.org/stage/u/p/1.0/p-1.0.tar.bz2".

Definition not_found_list : response :=
  mkResponse 404 ∅ (Some (PList [])) "[]"
             "GET" "https://api.anaconda.org/download/u/p/1.0/p-1.0.tar.bz2".

Definition not_found_object : response :=
  mkResponse 404 ∅ (Some (PDict ∅)) "{}"
             "GET" "https://api.anaconda.org/package/u/p".

Definition slow_down : response :=
  text_response 503 "<Error><Code>SlowDown</Code></Error>".

Definition removed : response :=
  json_response 200 (PDict {["removed" := PBool true]}).

(** The same 404, advertising a newer API and carrying another text. *)
Definition not_found_newer : response :=
  mkResponse 404 {["x-binstar-api-version" := "9.9"]} (Some (PDict ∅))
             "<html/>" "GET" "https://api.anaconda.org/package/u/p".

(** Redirects of the download endpoint. *)
Definition redirect : response :=
  mkResponse 302 {["location" := "https://cdn/x"]} None ""
             "GET" "https://api.anaconda.org/download/u/p/1.0/p-1.0.tar.bz2".

Definition redirect_nowhere : response :=
  mkResponse 302 ∅ None ""
             "GET" "https://api.anaconda.org/download/u/p/1.0/p-1.0.tar.bz2".


Definition staged_form_list : response :=
  json_response 200
    (PDict (list_to_map [("post_url", PStr "https://s3/x");
                         ("form_data", PList []);
                         ("dist_id", PStr "abc")])).

(** Attributes of a package, with a summary of their own. *)
Definition old_attrs : gmap string pyval :=
  list_to_map [("summary", PStr "old"); ("os", PStr "osx")].

(** [client.add_package("u", "p", summary="new", license="BSD",
    attrs=...)] *)
Definition add_package_with (script : list (outcome response)) (attrs : pyval)
  : outcome pyval * world :=
  add_package (E := env script) client "u" "p" (PStr "new") (PStr "BSD")
              (PBool true) PNone attrs w0.

End Demo.

(** * Properties *)

(** ** Strings *)

Lemma length_append_slash (s : string) :
  String.length (s ++ "/") = S (String.length s).
Proof. induction s as [|c s IH]; simpl; [reflexivity | now rewrite IH]. Qed.

Lemma substring_last_slash (s : string) :
  substring (String.length s) 1 (s ++ "/") = "/".
Proof. induction s as [|c s IH]; simpl; [reflexivity | exact IH]. Qed.

Lemma substring_prefix (s t : string) :
  substring 0 (String.length s) (s ++ t) = s.
Proof.
  induction s as [|c s IH]; simpl.
  - destruct t; reflexivity.
  - now rewrite IH.
Qed.

Lemma endswith_append_slash (s : string) : endswith (s ++ "/") "/" = true.
Proof.
  unfold endswith. rewrite length_append_slash. simpl String.length.
  replace (S (String.length s) - 1)%nat with (String.length s) by lia.
  rewrite substring_last_slash. reflexivity.
Qed.

Lemma drop_last_append_slash (s : string) : drop_last (s ++ "/") = s.
Proof.
  unfold drop_last. rewrite length_append_slash.
  replace (S (String.length s) - 1)%nat with (String.length s) by lia.
  apply substring_prefix.
Qed.

Section ClientProperties.
Context `{E : Externals}.

(** ** The constructor *)

Lemma init_domain_slash (t : option string) (s : string) (v : bool) :
  domain (__init__ t (s ++ "/") v) = s.
Proof.
  unfold __init__. simpl. rewrite endswith_append_slash.
  apply drop_last_append_slash.
Qed.

(** C10: for a domain [d] that does not end in a slash, the client built
    from [d ++ "/"] is the client built from [d] (same [domain], same session,
    hence the same URLs in every method); its domain is [d] itself, and only
    one slash is taken off: from [d ++ "//"] the domain is [d ++ "/"]. *)
Theorem init_strips_one_trailing_slash
    (t : option string) (d : string) (v : bool)
    (Hd : endswith d "/" = false) :
  __init__ t (d ++ "/") v = __init__ t d v
  /\ domain (__init__ t d v) = d
  /\ domain (__init__ t ((d ++ "/") ++ "/") v) = d ++ "/".
Proof.
  split; [|split].
  - unfold __init__. rewrite endswith_append_slash, Hd.
    now rewrite drop_last_append_slash.
  - unfold __init__. simpl. now rewrite Hd.
  - apply init_domain_slash.
Qed.

(** ** The response check *)

Lemma check_response_only_warns (res : response) (allowed : list Z) (w : world) :
  only_warns w (snd (_check_response res allowed w)).
Proof.
  unfold _check_response, bind, emit, ret, raise, lift, only_warns.
  destruct (version_gt _ _); simpl;
    destruct (bool_decide _); simpl;
    try destruct (default _ (STATUS_CODES !! _));
    try destruct (res_json res) as [[]|]; simpl;
    repeat split;
    solve [ eexists (cons _ nil); reflexivity
          | exists nil; simpl; now rewrite app_nil_r ].
Qed.

Lemma check_response_allowed (res : response) (allowed : list Z) (w : world) :
  status_code res ∈ allowed ->
  fst (_check_response res allowed w) = Ok tt.
Proof.
  intros Hin. unfold _check_response, bind, emit, ret.
  rewrite (bool_decide_eq_true_2 _ Hin).
  destruct (version_gt _ _); reflexivity.
Qed.

Lemma check_response_disallowed (res : response) (allowed : list Z) (w : world) :
  status_code res ∉ allowed ->
  fst (_check_response res allowed w) =
    match res_json res with
    | None =>
        Raise (ApiError (error_class (status_code res))
                        (PStr (synthesized res)) (status_code res))
    | Some (PDict d) =>
        Raise (ApiError (error_class (status_code res))
                        (default (PStr (synthesized res)) (d !! "error"))
                        (status_code res))
    | Some _ => Raise (AttributeError "get")
    end.
Proof.
  intros Hin. unfold _check_response, bind, emit, ret, raise, lift,
    synthesized, error_class.
  rewrite (bool_decide_eq_false_2 _ Hin).
  destruct (default _ (STATUS_CODES !! status_code res)) as [short long].
  destruct (version_gt _ _); simpl;
    destruct (res_json res) as [[]|]; reflexivity.
Qed.

Lemma error_class_spec (status : Z) :
  (status = 401 -> error_class status = Unauthorized)
  /\ (status = 404 -> error_class status = NotFound)
  /\ (status = 409 -> error_class status = Conflict)
  /\ (500 <= status -> error_class status = ServerError)
  /\ (status <> 401 -> status <> 404 -> status <> 409 -> status < 500 ->
      error_class status = BinstarError).
Proof.
  unfold error_class.
  repeat split; intros;
    repeat (match goal with
            | |- context [?a =? ?b] => destruct (Z.eqb_spec a b)
            | |- context [?a >=? ?b] => destruct (Z.geb_spec a b)
            end; try lia; try reflexivity).
Qed.

(** C5, as the code has it: with the body either not JSON or a JSON object,
    a status in the allowed list raises nothing; any other status raises one
    error [ErrCls(msg, status)], of class [Unauthorized] for 401, [NotFound]
    for 404, [Conflict] for 409, [ServerError] from 500 on and [BinstarError]
    otherwise; [msg] is the ['error'] entry of the body when the body is an
    object that has one, and otherwise the text
    [<short>: <long> ([METHOD] URL -> STATUS)]. *)
Theorem check_response_classifies
    (res : response) (allowed : list Z) (w : world)
    (Hbody : forall v, res_json res = Some v -> is_dict v = true) :
  let r := fst (_check_response res allowed w) in
  let st := status_code res in
  (st ∈ allowed -> r = Ok tt)
  /\ (st ∉ allowed ->
      exists cls msg,
        r = Raise (ApiError cls msg st)
        /\ (st = 401 -> cls = Unauthorized)
        /\ (st = 404 -> cls = NotFound)
        /\ (st = 409 -> cls = Conflict)
        /\ (500 <= st -> cls = ServerError)
        /\ (st <> 401 -> st <> 404 -> st <> 409 -> st < 500 ->
            cls = BinstarError)
        /\ (forall d m, res_json res = Some (PDict d) ->
                        d !! "error" = Some m -> msg = m)
        /\ (res_json res = None
            \/ (exists d, res_json res = Some (PDict d) /\ d !! "error" = None) ->
            msg = PStr
              (fst (default ("?", "Undefined error") (STATUS_CODES !! st))
               ++ ": "
               ++ snd (default ("?", "Undefined error") (STATUS_CODES !! st))
               ++ " ([" ++ request_method res ++ "] " ++ request_url res
               ++ " -> " ++ str_of_int st ++ ")"))).
Proof.
  intros r st. split.
  - apply check_response_allowed.
  - intros Hout. subst r.
    rewrite (check_response_disallowed _ _ _ Hout).
    assert (Hsyn : synthesized res =
      fst (default ("?", "Undefined error") (STATUS_CODES !! st)) ++ ": "
      ++ snd (default ("?", "Undefined error") (STATUS_CODES !! st))
      ++ " ([" ++ request_method res ++ "] " ++ request_url res
      ++ " -> " ++ str_of_int st ++ ")").
    { unfold synthesized. fold st.
      now destruct (default _ (STATUS_CODES !! st)). }
    destruct (error_class_spec st) as (H1 & H2 & H3 & H4 & H5).
    destruct (res_json res) as [v|] eqn:Hj.
    + specialize (Hbody v eq_refl). destruct v; try discriminate.
      eexists _, _. split; [reflexivity|].
      repeat split; trivial.
      * intros d' m [= <-] Hm. now rewrite Hm.
      * intros [[=] | (d' & [= <-] & Hm)]. rewrite Hm. simpl. now rewrite Hsyn.
    + eexists _, _. split; [reflexivity|].
      repeat split; trivial.
      * intros d' m [=].
      * intros _. now rewrite Hsyn.
Qed.

(** ** Traces *)

Lemma requests_sent_app (t u : list event) :
  requests_sent (t ++ u) = (requests_sent t ++ requests_sent u)%list.
Proof. apply omap_app. Qed.

Lemma hash_calls_app (t u : list event) :
  hash_calls (t ++ u) = (hash_calls t ++ hash_calls u)%list.
Proof. apply omap_app. Qed.

Lemma encoder_calls_app (t u : list event) :
  encoder_calls (t ++ u) = (encoder_calls t ++ encoder_calls u)%list.
Proof. apply omap_app. Qed.

Lemma log_lines_app (t u : list event) :
  log_lines (t ++ u) = (log_lines t ++ log_lines u)%list.
Proof. apply omap_app. Qed.

Lemma requests_sent_warns (msgs : list string) :
  requests_sent (map EvWarn msgs) = [].
Proof. induction msgs; simpl; trivial. Qed.

Lemma hash_calls_warns (msgs : list string) : hash_calls (map EvWarn msgs) = [].
Proof. induction msgs; simpl; trivial. Qed.

Lemma encoder_calls_warns (msgs : list string) :
  encoder_calls (map EvWarn msgs) = [].
Proof. induction msgs; simpl; trivial. Qed.

Lemma log_lines_warns (msgs : list string) : log_lines (map EvWarn msgs) = [].
Proof. induction msgs; simpl; trivial. Qed.

Ltac obs :=
  repeat (rewrite ?requests_sent_app, ?hash_calls_app, ?encoder_calls_app,
            ?log_lines_app, ?requests_sent_warns, ?hash_calls_warns,
            ?encoder_calls_warns, ?log_lines_warns, ?app_nil_r;
          simpl).

(** ** Running a method step by step *)

Lemma http_eq (rq : request) (w : world) :
  http rq w =
    (net (served w),
     mkWorld (S (served w)) (trace w ++ [EvHttp rq (net (served w))]) (fd w)).
Proof. reflexivity. Qed.

(** The next [_check_response] of the goal passes ([H] says the status is
    allowed): name the world it leaves and keep what is known of it. *)
Ltac check_passes H :=
  match goal with
  | |- context [_check_response ?res ?al ?w] =>
      let Hf := fresh "Hf" in
      let Hq := fresh "Hq" in
      let r := fresh "r" in
      let w2 := fresh "w" in
      pose proof (check_response_allowed res al w H) as Hf;
      pose proof (check_response_only_warns res al w) as Hq;
      destruct (_check_response res al w) as [r w2];
      simpl in Hf, Hq; subst r;
      let Hs := fresh "Hserved" in
      let Hd := fresh "Hfd" in
      let Ht := fresh "Htrace" in
      destruct Hq as (Hs & Hd & ? & Ht);
      simpl in Hs, Hd, Ht
  end.

(** The next [_check_response] of the goal, whatever it does. *)
Ltac check_any :=
  match goal with
  | |- context [_check_response ?res ?al ?w] =>
      let Hin := fresh "Hin" in
      let Hout := fresh "Hout" in
      let Hq := fresh "Hq" in
      let r := fresh "r" in
      let w2 := fresh "w" in
      pose proof (check_response_only_warns res al w) as Hq;
      pose proof (check_response_allowed res al w) as Hin;
      pose proof (check_response_disallowed res al w) as Hout;
      destruct (_check_response res al w) as [r w2];
      simpl in Hq, Hin, Hout;
      let Hs := fresh "Hserved" in
      let Hd := fresh "Hfd" in
      let Ht := fresh "Htrace" in
      destruct Hq as (Hs & Hd & ? & Ht);
      simpl in Hs, Hd, Ht
  end.

Ltac unfold_ops :=
  unfold session_post, session_get, session_delete, bind, lift, ret, raise,
    json, call_compute_hash, call_stream_multipart, fd_tell, fd_seek,
    fd_seek_end, emit;
  rewrite ?http_eq.

(** ** Delete operations *)

(** C7: [remove_dist] without [basename] and without [_id] raises the
    argument error of the method (a [TypeError], the error the client uses
    for bad local arguments) and sends nothing: the world is untouched. *)
Theorem remove_dist_needs_basename_or_id
    (self : Binstar) (login package_name release : string) (w : world) :
  remove_dist self login package_name release None None w =
    (Raise (TypeError
       "method remove_dist expects either 'basename' or '_id' arguments"), w).
Proof. reflexivity. Qed.

(** C8, as the code has it: [remove_package], [remove_release] and
    [remove_authentication] accept status 201 only and then return [None];
    [remove_dist] accepts status 200 only and then returns [res.json()], the
    parsed body of the answer. *)
Theorem delete_operations_result
    (self : Binstar) (username package_name version : string)
    (auth_name basename _id : option string) (w : world) (res : response)
    (Hnet : net (served w) = Ok res) :
  (status_code res = 201 ->
     fst (remove_package self username package_name w) = Ok PNone
     /\ fst (remove_release self username package_name version w) = Ok PNone
     /\ fst (remove_authentication self auth_name w) = Ok PNone)
  /\ (status_code res = 200 ->
      truthy basename || truthy _id = true ->
      fst (remove_dist self username package_name version basename _id w) =
        match res_json res with
        | Some body => Ok body
        | None => Raise (ValueError "No JSON object could be decoded")
        end).
Proof.
  split.
  - intros Hst.
    assert (Hin : status_code res ∈ [201]) by (rewrite Hst; apply list_elem_of_here).
    repeat split.
    + unfold remove_package. unfold_ops. rewrite Hnet. simpl.
      check_passes Hin. reflexivity.
    + unfold remove_release. unfold_ops. rewrite Hnet. simpl.
      check_passes Hin. reflexivity.
    + unfold remove_authentication. unfold_ops. rewrite Hnet. simpl.
      check_passes Hin. reflexivity.
  - intros Hst Harg.
    assert (Hin : status_code res ∈ [200]) by (rewrite Hst; apply list_elem_of_here).
    unfold remove_dist. unfold_ops.
    destruct (truthy basename); [|destruct (truthy _id); [|discriminate]];
      simpl; rewrite Hnet; simpl; check_passes Hin;
      destruct (res_json res); reflexivity.
Qed.

(** ** Download *)

(** What [download] does for each answer of the server, as long as an error
    body is not a JSON value other than an object: the request is a GET
    through the session that does not follow redirects and carries a
    non-empty [md5] as [ETag]; 304 gives [None] and nothing else is sent; 302
    gives the handle of a streamed GET of the [location] header; any other
    status raises the error of its class. *)
Lemma download_behaviour
    (self : Binstar) (login package_name release basename : string)
    (md5 : option string) (w : world) (res : response)
    (Hnet : net (served w) = Ok res) :
  let out := download self login package_name release basename md5 w in
  exists rq : request,
    via_session rq = true /\ method rq = "GET" /\ allow_redirects rq = false
    /\ (forall m, md5 = Some m -> m <> "" -> headers rq !! "ETag" = Some m)
    /\ (status_code res = 304 ->
        fst out = Ok None
        /\ requests_sent (trace (snd out)) = (requests_sent (trace w) ++ [rq])%list)
    /\ (status_code res = 302 ->
        forall location, res_headers res !! "location" = Some location ->
        fst out = match net (S (served w)) with
                  | Ok res2 => Ok (Some res2)
                  | Raise e => Raise e
                  end
        /\ requests_sent (trace (snd out)) =
             (requests_sent (trace w)
              ++ [rq; mkRequest false "GET" (PStr location) None ∅ true true
                                None None])%list)
    /\ (status_code res <> 302 -> status_code res <> 304 ->
        (forall v, res_json res = Some v -> is_dict v = true) ->
        (exists msg,
           fst out = Raise (ApiError (error_class (status_code res)) msg
                                     (status_code res)))
        /\ requests_sent (trace (snd out)) = (requests_sent (trace w) ++ [rq])%list).
Proof.
  intros out. subst out. unfold download.
  set (hd := if truthy md5 then _ else _).
  set (u := (domain self ++ _)%string).
  exists (session_request "GET" u None hd false).
  split; [reflexivity|]. split; [reflexivity|]. split; [reflexivity|].
  split.
  { intros m -> Hm. subst hd. destruct m; [congruence|]. simpl.
    apply lookup_singleton_eq. }
  unfold_ops. rewrite Hnet. simpl.
  split; [|split].
  - intros Hst.
    assert (Hin : status_code res ∈ [302; 304]) by (rewrite Hst; rewrite !elem_of_cons; tauto).
    check_passes Hin. rewrite Hst. simpl. split; [reflexivity|].
    rewrite Htrace. obs. reflexivity.
  - intros Hst location Hloc.
    assert (Hin : status_code res ∈ [302; 304]) by (rewrite Hst; rewrite !elem_of_cons; tauto).
    check_passes Hin. rewrite Hst. simpl. rewrite Hloc. simpl.
    rewrite Hserved, Htrace.
    destruct (net (S (served w))); simpl; (split; [reflexivity|]);
      obs; now rewrite <- app_assoc.
  - intros H302 H304 Hbody.
    assert (Hno : status_code res ∉ [302; 304])
      by (rewrite !not_elem_of_cons; repeat split; trivial; apply not_elem_of_nil).
    check_any. specialize (Hout Hno). subst r.
    destruct (res_json res) as [v|] eqn:Hj.
    + specialize (Hbody v eq_refl). destruct v; try discriminate.
      simpl. split; [eexists; reflexivity|]. rewrite Htrace. obs. reflexivity.
    + simpl. split; [eexists; reflexivity|]. rewrite Htrace. obs. reflexivity.
Qed.

(** C6 at the input on which the code leaves it: the answer has a status
    other than 302 and 304 and a body that is JSON but not an object (a list,
    a string, a number, [null]).  [_check_response] then calls [.get] on that
    value, and [download] ends in [AttributeError] instead of the error of
    the status. *)
Theorem download_error_body_not_object
    (self : Binstar) (login package_name release basename : string)
    (md5 : option string) (w : world) (res : response) (v : pyval)
    (Hnet : net (served w) = Ok res)
    (H302 : status_code res <> 302) (H304 : status_code res <> 304)
    (Hjson : res_json res = Some v) (Hv : is_dict v = false) :
  fst (download self login package_name release basename md5 w) =
    Raise (AttributeError "get").
Proof.
  assert (Hno : status_code res ∉ [302; 304])
      by (rewrite !not_elem_of_cons; repeat split; trivial; apply not_elem_of_nil).
  unfold download. unfold_ops. rewrite Hnet. simpl. check_any.
  specialize (Hout Hno). subst r. rewrite Hjson.
  destruct v; try reflexivity. discriminate.
Qed.

(** ** Upload *)

Lemma attrs_default_dict (attrs : pyval) :
  attrs = PNone \/ is_dict attrs = true ->
  is_dict (match attrs with PNone => PDict ∅ | _ => attrs end) = true.
Proof. intros [-> | H]; [reflexivity | now destruct attrs]. Qed.

(** C9: an [attrs] that is neither [None] nor a dictionary makes [upload]
    raise [TypeError] with the world untouched (nothing was sent), and
    [attrs=None] runs exactly as [attrs={}] does. *)
Theorem upload_attrs_must_be_dict
    (self : Binstar) (login package_name release basename : string)
    (distribution_type description : pyval) (md5 : option string)
    (size : option Z) (dependencies attrs channels : pyval) (w : world)
    (Hnone : attrs <> PNone) (Hdict : is_dict attrs = false) :
  upload self login package_name release basename distribution_type
         description md5 size dependencies attrs channels w
    = (Raise (TypeError "argument attrs must be a dictionary"), w)
  /\ upload self login package_name release basename distribution_type
            description md5 size dependencies PNone channels w
     = upload self login package_name release basename distribution_type
              description md5 size dependencies (PDict ∅) channels w.
Proof.
  split; [|reflexivity].
  unfold upload. destruct attrs; try discriminate; try reflexivity.
  congruence.
Qed.

(** The stage phase of [upload] when the stage POST is refused: the error
    of [_check_response] comes out of [upload] as it is, after one request,
    with no hashing and no encoding. *)
Lemma upload_stage_refused
    (self : Binstar) (login package_name release basename : string)
    (distribution_type description : pyval) (md5 : option string)
    (size : option Z) (dependencies attrs channels : pyval) (w : world)
    (res : response)
    (Hattrs : attrs = PNone \/ is_dict attrs = true)
    (Hnet : net (served w) = Ok res)
    (Hst : status_code res <> 200) :
  let out := upload self login package_name release basename
               distribution_type description md5 size dependencies attrs
               channels w in
  (exists e w1, fst (_check_response res [200] w1) = Raise e
                /\ fst out = Raise e)
  /\ served (snd out) = S (served w)
  /\ hash_calls (trace (snd out)) = hash_calls (trace w)
  /\ encoder_calls (trace (snd out)) = encoder_calls (trace w)
  /\ ((forall v, res_json res = Some v -> is_dict v = true) ->
      exists msg, fst out = Raise (ApiError (error_class (status_code res)) msg
                                            (status_code res))).
Proof.
  intros out. subst out. unfold upload. cbv zeta.
  rewrite (attrs_default_dict _ Hattrs). simpl.
  destruct (jencode _) as [data hdrs].
  unfold_ops. rewrite Hnet. simpl.
  assert (Hno : status_code res ∉ [200])
    by (rewrite list_elem_of_singleton; exact Hst).
  match goal with
  | |- context [_check_response res [200] ?w1] =>
      pose proof (check_response_disallowed res [200] w1 Hno) as Hd;
      pose proof (check_response_only_warns res [200] w1) as Hq;
      assert (Hr : exists e, fst (_check_response res [200] w1) = Raise e)
        by (rewrite Hd; destruct (res_json res) as [[]|]; eexists; reflexivity);
      destruct Hr as [e He];
      split; [exists e, w1; split; [exact He|]|];
      destruct (_check_response res [200] w1) as [r w2]
  end; simpl in Hd, Hq, He; rewrite He in Hd |- *; clear He r; simpl;
    destruct Hq as (Hserved & Hfd & msgs & Htrace).
  - reflexivity.
  - split; [exact Hserved|].
    rewrite Htrace. obs.
    split; [reflexivity|]. split; [reflexivity|].
    intros Hbody.
    destruct (res_json res) as [v|] eqn:Hj.
    + specialize (Hbody v eq_refl). destruct v; try discriminate.
      injection Hd as ->. eexists; reflexivity.
    + injection Hd as ->. eexists; reflexivity.
Qed.

(** C3 at the input on which the code leaves it: the stage POST is answered
    with a refused status and a body that is JSON but not an object.  No
    second request is made, but what [upload] raises is the
    [AttributeError] of [data.get] in [_check_response], not the error of
    the status. *)
Theorem upload_stage_error_body_not_object
    (self : Binstar) (login package_name release basename : string)
    (distribution_type description : pyval) (md5 : option string)
    (size : option Z) (dependencies attrs channels : pyval) (w : world)
    (res : response) (v : pyval)
    (Hattrs : attrs = PNone \/ is_dict attrs = true)
    (Hnet : net (served w) = Ok res)
    (Hst : status_code res <> 200)
    (Hjson : res_json res = Some v) (Hv : is_dict v = false) :
  let out := upload self login package_name release basename
               distribution_type description md5 size dependencies attrs
               channels w in
  fst out = Raise (AttributeError "get")
  /\ served (snd out) = S (served w).
Proof.
  intros out.
  destruct (upload_stage_refused self login package_name release basename
              distribution_type description md5 size dependencies attrs
              channels w res Hattrs Hnet Hst)
    as ((e & w1 & He & Hfst) & Hserved & _).
  fold out in Hfst, Hserved. split; [|exact Hserved].
  rewrite Hfst.
  rewrite check_response_disallowed, Hjson in He
    by (rewrite list_elem_of_singleton; exact Hst).
  destruct v; try discriminate; injection He as <-; reflexivity.
Qed.

(** The stage POST is accepted: run [upload] up to the point where the
    digest is settled. *)
Ltac stage_passes Hattrs Hnet Hst Hjson Hurl Hform :=
  unfold upload; cbv zeta;
  rewrite (attrs_default_dict _ Hattrs); simpl;
  destruct (jencode _) as [data hdrs];
  unfold_ops; rewrite Hnet; simpl;
  let Hin := fresh "Hin" in
  assert (Hin : status_code _ ∈ [200]) by (rewrite Hst; apply list_elem_of_here);
  check_passes Hin;
  rewrite Hjson; simpl; rewrite Hurl; simpl; rewrite Hform; simpl.

(** C1 on the code: the caller supplies the digest, the stage POST is
    accepted and the size is supplied or can be measured.  Hashing is indeed
    skipped, but the supplied digest is never bound to [b64md5]: after
    ['Content-Length'] is set, reading [b64md5] raises [UnboundLocalError];
    nothing is handed to the encoder and the only request sent is the stage
    POST. *)
Theorem upload_supplied_digest_unbound
    (self : Binstar) (login package_name release basename : string)
    (distribution_type description : pyval) (md5 : string)
    (size : option Z) (dependencies attrs channels : pyval) (w : world)
    (res : response) (obj form : gmap string pyval) (s3url : pyval)
    (Hattrs : attrs = PNone \/ is_dict attrs = true)
    (Hnet : net (served w) = Ok res)
    (Hst : status_code res = 200)
    (Hjson : res_json res = Some (PDict obj))
    (Hurl : obj !! "post_url" = Some s3url)
    (Hform : obj !! "form_data" = Some (PDict form))
    (Hsize : size = None -> seekable (fd w) = true) :
  let out := upload self login package_name release basename
               distribution_type description (Some md5) size dependencies
               attrs channels w in
  fst out = Raise (UnboundLocalError "b64md5")
  /\ hash_calls (trace (snd out)) = hash_calls (trace w)
  /\ encoder_calls (trace (snd out)) = encoder_calls (trace w)
  /\ served (snd out) = S (served w).
Proof.
  intros out. subst out.
  stage_passes Hattrs Hnet Hst Hjson Hurl Hform.
  destruct size as [n|]; simpl.
  - rewrite Htrace, Hserved. obs. repeat split; reflexivity.
  - repeat (rewrite ?Hfd, ?(Hsize eq_refl); simpl).
    rewrite Htrace, Hserved. obs. repeat split; reflexivity.
Qed.

(** X22: with a supplied digest [upload] never gets further than the stage
    phase, whatever the server answers: it never returns a value, never
    hashes, never encodes, and sends at most the stage POST. *)
Lemma upload_supplied_digest_never_transfers
    (self : Binstar) (login package_name release basename : string)
    (distribution_type description : pyval) (md5 : string)
    (size : option Z) (dependencies attrs channels : pyval) (w : world) :
  let out := upload self login package_name release basename
               distribution_type description (Some md5) size dependencies
               attrs channels w in
  (exists e, fst out = Raise e)
  /\ hash_calls (trace (snd out)) = hash_calls (trace w)
  /\ encoder_calls (trace (snd out)) = encoder_calls (trace w)
  /\ (served (snd out) <= S (served w))%nat.
Proof.
  intros out. subst out. unfold upload. cbv zeta.
  destruct (is_dict _); simpl;
    [|repeat split; [eexists; reflexivity | lia]].
  destruct (jencode _) as [data hdrs].
  unfold_ops.
  destruct (net (served w)) as [res|e]; simpl;
    [|obs; repeat split; [eexists; reflexivity | lia]].
  check_any. clear Hin Hout.
  destruct r as [[]|e]; simpl;
    [|rewrite Htrace, Hserved; obs; repeat split; [eexists; reflexivity | lia]].
  destruct (res_json res) as [v|]; simpl;
    [|rewrite Htrace, Hserved; obs; repeat split; [eexists; reflexivity | lia]].
  destruct (getitem v "post_url"); simpl;
    [|rewrite Htrace, Hserved; obs; repeat split; [eexists; reflexivity | lia]].
  destruct (getitem v "form_data") as [s3data|]; simpl;
    [|rewrite Htrace, Hserved; obs; repeat split; [eexists; reflexivity | lia]].
  destruct size as [n|]; simpl.
  - destruct (setitem s3data _ _); simpl;
      rewrite Htrace, Hserved; obs; repeat split;
      solve [eexists; reflexivity | lia].
  - rewrite Hfd. destruct (seekable (fd w)) eqn:Hseek; simpl;
      repeat (rewrite ?Hfd, ?Hseek; simpl);
      [destruct (setitem s3data _ _); simpl|];
      rewrite ?Htrace, ?Hserved; obs; repeat split;
      solve [eexists; reflexivity | lia].
Qed.

(** The run made no call to the encoder, so the premise that it made one is
    absurd. *)
Ltac no_call :=
  obs; rewrite drop_all;
  let H := fresh in intros H; apply elem_of_nil in H; destruct H.

(** The run made the one call [c]: the call of the premise is [c]. *)
Ltac one_call :=
  obs; rewrite drop_app_length;
  let H := fresh in intros H; apply list_elem_of_singleton in H; exact H.

(** Whatever [upload] hands to the multipart encoder is the
    [form_data] of the stage answer with ['Content-Length'] set to the size
    and ['Content-MD5'] set to the base64 digest that [compute_hash]
    returned, and with every other key as the stage answer gave it. *)
Theorem upload_form_data_frame
    (self : Binstar) (login package_name release basename : string)
    (distribution_type description : pyval) (md5 : option string)
    (size : option Z) (dependencies attrs channels : pyval) (w : world)
    (fields : pyval) (bn : string)
    (Hcall :
       (fields, bn) ∈
         encoded_during w
           (snd (upload self login package_name release basename
                   distribution_type description md5 size dependencies
                   attrs channels w))) :
  exists (res : response) (obj form d : gmap string pyval)
         (hex b64 : string) (n : Z),
    net (served w) = Ok res
    /\ res_json res = Some (PDict obj)
    /\ obj !! "form_data" = Some (PDict form)
    /\ fst (compute_hash (fd w) size) = Ok (hex, b64, n)
    /\ fields = PDict d /\ bn = basename
    /\ d !! "Content-Length" = Some (PInt n)
    /\ d !! "Content-MD5" = Some (PStr b64)
    /\ forall k, k <> "Content-Length" -> k <> "Content-MD5" ->
                 d !! k = form !! k.
Proof.
  revert Hcall. unfold encoded_during, upload. cbv zeta.
  destruct (is_dict _); simpl; [|no_call].
  destruct (jencode _) as [data hdrs].
  unfold_ops.
  destruct (net (served w)) as [res|e] eqn:Hnet; simpl;
    [|no_call].
  check_any. clear Hin Hout.
  destruct r as [[]|e]; simpl; [|rewrite Htrace; no_call].
  destruct (res_json res) as [v|] eqn:Hjson; simpl;
    [|rewrite Htrace; no_call].
  destruct v as [| | | | | |obj]; simpl;
    try (rewrite Htrace; no_call).
  destruct (obj !! "post_url") as [s3url|]; simpl;
    [|rewrite Htrace; no_call].
  destruct (obj !! "form_data") as [s3data|] eqn:Hform; simpl;
    [|rewrite Htrace; no_call].
  destruct md5 as [m|]; simpl.
  { destruct size as [n|]; simpl.
    - destruct (setitem s3data _ _); simpl; rewrite Htrace; no_call.
    - rewrite Hfd. destruct (seekable (fd w)) eqn:Hseek; simpl;
        repeat (rewrite ?Hfd, ?Hseek; simpl);
        [destruct (setitem s3data _ _); simpl|];
        rewrite ?Htrace; no_call. }
  rewrite Hfd.
  destruct (compute_hash (fd w) size) as [[[[hex b64] n]|e] f'] eqn:Hhash;
    simpl; [|rewrite Htrace; no_call].
  destruct s3data as [| | | | | |form]; simpl;
    try (rewrite Htrace; no_call).
  match goal with
  | |- context [stream_multipart ?a ?b ?c] =>
      destruct (stream_multipart a b c) as [data_stream headers]
  end.
  simpl. rewrite ?Hserved.
  intros Hcall.
  exists res, obj, form,
    (<["Content-MD5" := PStr b64]> (<["Content-Length" := PInt n]> form)),
    hex, b64, n.
  assert (Hfb : (fields, bn) =
    (PDict (<["Content-MD5" := PStr b64]> (<["Content-Length" := PInt n]> form)),
     basename)).
  { revert Hcall.
    destruct (net (S (served w))) as [s3res|e]; simpl.
    2:{ rewrite Htrace. one_call. }
    destruct (status_code s3res =? 201); simpl.
    2:{ rewrite Htrace. one_call. }
    destruct (obj !! "dist_id") as [dist_id|]; simpl.
    2:{ rewrite Htrace. one_call. }
    destruct (jencode _) as [data2 hdrs2]. simpl.
    destruct (net (S (S (served w)))) as [res3|e]; simpl.
    2:{ rewrite Htrace. one_call. }
    check_any. clear Hin Hout.
    destruct r as [[]|e]; simpl;
      [destruct (res_json res3); simpl|];
      rewrite Htrace0; simpl; rewrite Htrace; one_call. }
  injection Hfb as -> ->.
  repeat split; trivial.
  - rewrite lookup_insert_ne by discriminate. apply lookup_insert_eq.
  - apply lookup_insert_eq.
  - intros k Hk1 Hk2. now rewrite !lookup_insert_ne by congruence.
Qed.

(** C2 on the code: the stage POST is accepted and its answer carries the
    dictionary [form] as ['form_data'].  Without a supplied digest, once
    [compute_hash] has returned, [upload] hands the encoder, in its one call,
    [form] with ['Content-Length'] and ['Content-MD5'] set and every other key
    unchanged.  With a supplied digest it never does: nothing reaches the
    encoder, [upload] raises, and when the size is supplied or can be
    measured the exception is the [UnboundLocalError] of [b64md5], raised
    after ['Content-Length'] alone was set. *)
Theorem upload_form_data_handover
    (self : Binstar) (login package_name release basename : string)
    (distribution_type description : pyval) (md5 : option string)
    (size : option Z) (dependencies attrs channels : pyval) (w : world)
    (res : response) (obj form : gmap string pyval) (s3url : pyval)
    (Hattrs : attrs = PNone \/ is_dict attrs = true)
    (Hnet : net (served w) = Ok res)
    (Hst : status_code res = 200)
    (Hjson : res_json res = Some (PDict obj))
    (Hurl : obj !! "post_url" = Some s3url)
    (Hform : obj !! "form_data" = Some (PDict form)) :
  let out := upload self login package_name release basename
               distribution_type description md5 size dependencies attrs
               channels w in
  match md5 with
  | None =>
      forall hex b64 n f',
        compute_hash (fd w) size = (Ok (hex, b64, n), f') ->
        exists d : gmap string pyval,
          encoded_during w (snd out) = [(PDict d, basename)]
          /\ d !! "Content-Length" = Some (PInt n)
          /\ d !! "Content-MD5" = Some (PStr b64)
          /\ forall k, k <> "Content-Length" -> k <> "Content-MD5" ->
                       d !! k = form !! k
  | Some _ =>
      encoded_during w (snd out) = []
      /\ (exists e, fst out = Raise e)
      /\ (size <> None \/ seekable (fd w) = true ->
          fst out = Raise (UnboundLocalError "b64md5"))
  end.
Proof.
  intros out. subst out. unfold encoded_during.
  destruct md5 as [m|].
  - stage_passes Hattrs Hnet Hst Hjson Hurl Hform.
    destruct size as [n|]; simpl.
    + rewrite Htrace. obs. rewrite drop_all.
      split; [reflexivity|]. split; [eexists; reflexivity|]. reflexivity.
    + rewrite Hfd. destruct (seekable (fd w)) eqn:Hseek; simpl;
        repeat (rewrite ?Hfd, ?Hseek; simpl);
        rewrite Htrace; obs; rewrite drop_all;
        (split; [reflexivity|]); (split; [eexists; reflexivity|]).
      * reflexivity.
      * intros [H|H]; congruence.
  - intros hex b64 n f' Hhash.
    exists (<["Content-MD5" := PStr b64]> (<["Content-Length" := PInt n]> form)).
    split; [|split; [|split]].
    + stage_passes Hattrs Hnet Hst Hjson Hurl Hform.
      rewrite Hfd, Hhash. simpl.
      match goal with
      | |- context [stream_multipart ?a ?b ?c] =>
          destruct (stream_multipart a b c) as [data_stream headers]
      end.
      simpl. rewrite ?Hserved.
      destruct (net (S (served w))) as [s3res|e]; simpl.
      2:{ rewrite Htrace. obs. now rewrite drop_app_length. }
      destruct (status_code s3res =? 201); simpl.
      2:{ rewrite Htrace. obs. now rewrite drop_app_length. }
      destruct (obj !! "dist_id") as [dist_id|]; simpl.
      2:{ rewrite Htrace. obs. now rewrite drop_app_length. }
      destruct (jencode _) as [data2 hdrs2]. simpl.
      destruct (net (S (S (served w)))) as [res3|e]; simpl.
      2:{ rewrite Htrace. obs. now rewrite drop_app_length. }
      check_any. clear Hin0 Hout.
      destruct r as [[]|e]; simpl;
        [destruct (res_json res3); simpl|];
        rewrite Htrace0; simpl; rewrite Htrace; obs;
        now rewrite drop_app_length.
    + rewrite lookup_insert_ne by discriminate. apply lookup_insert_eq.
    + apply lookup_insert_eq.
    + intros k Hk1 Hk2. now rewrite !lookup_insert_ne by congruence.
Qed.

(** The stage POST is accepted and the digest is computed: run [upload] up
    to the answer of the storage POST. *)
Ltac transfer_runs Hattrs Hnet Hst Hjson Hurl Hform Hhash Hs3 :=
  stage_passes Hattrs Hnet Hst Hjson Hurl Hform;
  match goal with Hfd : fd _ = fd _ |- _ => rewrite Hfd end;
  rewrite Hhash; simpl;
  match goal with
  | |- context [stream_multipart ?a ?b ?c] =>
      destruct (stream_multipart a b c) as [data_stream headers]
  end;
  simpl;
  match goal with Hserved : served _ = S _ |- _ => rewrite ?Hserved end;
  rewrite ?Hs3; simpl.

(** [upload] sends a second request, the storage POST, only when the
    stage POST was accepted with a well formed answer, no digest was
    supplied and [compute_hash] returned. *)
Lemma upload_second_request_inv
    (self : Binstar) (login package_name release basename : string)
    (distribution_type description : pyval) (md5 : option string)
    (size : option Z) (dependencies attrs channels : pyval) (w : world) :
  (S (served w) < served (snd (upload self login package_name release basename
                                 distribution_type description md5 size
                                 dependencies attrs channels w)))%nat ->
  md5 = None
  /\ (attrs = PNone \/ is_dict attrs = true)
  /\ exists (res : response) (obj form : gmap string pyval) (s3url : pyval)
            (hex b64 : string) (n : Z) (f' : file),
      net (served w) = Ok res
      /\ status_code res = 200
      /\ res_json res = Some (PDict obj)
      /\ obj !! "post_url" = Some s3url
      /\ obj !! "form_data" = Some (PDict form)
      /\ compute_hash (fd w) size = (Ok (hex, b64, n), f').
Proof.
  unfold upload. cbv zeta.
  destruct (is_dict _) eqn:Hattrs; simpl; [|lia].
  destruct (jencode _) as [data hdrs].
  unfold_ops.
  destruct (net (served w)) as [res|e] eqn:Hnet; simpl; [|lia].
  check_any. clear Hin.
  destruct r as [[]|e]; simpl; [|lia].
  assert (Hst : status_code res = 200).
  { destruct (decide (status_code res = 200)) as [|Hne]; [assumption|].
    assert (Hno : status_code res ∉ [200])
      by (rewrite list_elem_of_singleton; exact Hne).
    specialize (Hout Hno).
    destruct (res_json res) as [[]|]; discriminate. }
  clear Hout.
  destruct (res_json res) as [v|] eqn:Hjson; simpl; [|lia].
  destruct v as [| | | | | |obj]; simpl; try lia.
  destruct (obj !! "post_url") as [s3url|] eqn:Hurl; simpl; [|lia].
  destruct (obj !! "form_data") as [s3data|] eqn:Hform; simpl; [|lia].
  destruct md5 as [m|]; simpl.
  { destruct size as [n|]; simpl.
    - destruct (setitem s3data _ _); simpl; lia.
    - rewrite Hfd. destruct (seekable (fd w)) eqn:Hseek; simpl;
        repeat (rewrite ?Hfd, ?Hseek; simpl);
        [destruct (setitem s3data _ _); simpl|]; lia. }
  rewrite Hfd.
  destruct (compute_hash (fd w) size) as [[[[hex b64] n]|e] f'] eqn:Hhash;
    simpl; [|lia].
  destruct s3data as [| | | | | |form]; simpl; try lia.
  intros _. split; [reflexivity|]. split.
  { destruct attrs; try discriminate; auto. }
  exists res, obj, form, s3url, hex, b64, n, f'. repeat split; trivial.
Qed.

(** What [upload] does with the answer [s3res] of the storage POST, from
    the conditions under which that POST is sent. *)
Lemma upload_after_storage
    (self : Binstar) (login package_name release basename : string)
    (distribution_type description : pyval)
    (size : option Z) (dependencies attrs channels : pyval) (w : world)
    (res s3res : response) (obj form : gmap string pyval) (s3url : pyval)
    (hex b64 : string) (n : Z) (f' : file)
    (Hattrs : attrs = PNone \/ is_dict attrs = true)
    (Hnet : net (served w) = Ok res)
    (Hst : status_code res = 200)
    (Hjson : res_json res = Some (PDict obj))
    (Hurl : obj !! "post_url" = Some s3url)
    (Hform : obj !! "form_data" = Some (PDict form))
    (Hhash : compute_hash (fd w) size = (Ok (hex, b64, n), f'))
    (Hs3 : net (S (served w)) = Ok s3res) :
  let out := upload self login package_name release basename
               distribution_type description None size dependencies attrs
               channels w in
  (status_code s3res <> 201 ->
     fst out = Raise (ApiError BinstarError (PStr "Error uploading package")
                               (status_code s3res))
     /\ log_lines (trace (snd out))
        = (log_lines (trace w) ++ [text s3res; ""; ""])%list
     /\ served (snd out) = S (S (served w)))
  /\ (status_code s3res = 201 ->
      forall dist_id, obj !! "dist_id" = Some dist_id ->
      served (snd out) = S (S (S (served w)))
      /\ last (requests_sent (trace (snd out)))
         = Some (session_request "POST"
                   (domain self ++ "/commit/" ++ login ++ "/" ++ package_name
                    ++ "/" ++ release ++ "/" ++ basename)
                   (Some (fst (jencode (PDict {["dist_id" := dist_id]}))))
                   (snd (jencode (PDict {["dist_id" := dist_id]}))) true)).
Proof.
  intros out. subst out. split.
  - intros Hno.
    transfer_runs Hattrs Hnet Hst Hjson Hurl Hform Hhash Hs3.
    destruct (Z.eqb_spec (status_code s3res) 201) as [|_]; [contradiction|].
    simpl. rewrite Htrace. obs. rewrite <- !app_assoc.
    repeat split; reflexivity.
  - intros H201 dist_id Hid.
    transfer_runs Hattrs Hnet Hst Hjson Hurl Hform Hhash Hs3.
    rewrite H201. simpl. rewrite Hid. simpl.
    destruct (jencode _) as [data2 hdrs2]. simpl.
    destruct (net (S (S (served w)))) as [res3|e]; simpl.
    + check_any. clear Hin0 Hout.
      destruct r as [[]|e]; simpl; [destruct (res_json res3); simpl|];
        rewrite Hserved0, Htrace0; (split; [reflexivity|]);
        rewrite !requests_sent_app, requests_sent_warns, app_nil_r;
        simpl; apply last_snoc.
    + split; [reflexivity|].
      rewrite !requests_sent_app. simpl. apply last_snoc.
Qed.

(** C4, as the code has it.  [upload] has sent its second request, the
    storage POST, and the answer to it is [s3res].  With a status other than
    201 [upload] writes the body of the answer to the log and raises
    [BinstarError('Error uploading package', status)], an error that carries
    the status and not the body; two requests were sent, the commit POST is
    not among them.  With status 201 and the [dist_id] of the stage answer a
    third request is sent: the commit POST of that [dist_id]. *)
Theorem upload_storage_status
    (self : Binstar) (login package_name release basename : string)
    (distribution_type description : pyval) (md5 : option string)
    (size : option Z) (dependencies attrs channels : pyval) (w : world)
    (s3res : response)
    (Hsent : (S (served w) <
              served (snd (upload self login package_name release basename
                             distribution_type description md5 size
                             dependencies attrs channels w)))%nat)
    (Hs3 : net (S (served w)) = Ok s3res) :
  let out := upload self login package_name release basename
               distribution_type description md5 size dependencies attrs
               channels w in
  (status_code s3res <> 201 ->
     fst out = Raise (ApiError BinstarError (PStr "Error uploading package")
                               (status_code s3res))
     /\ log_lines (trace (snd out))
        = (log_lines (trace w) ++ [text s3res; ""; ""])%list
     /\ served (snd out) = S (S (served w)))
  /\ (status_code s3res = 201 ->
      forall res obj dist_id,
        net (served w) = Ok res -> res_json res = Some (PDict obj) ->
        obj !! "dist_id" = Some dist_id ->
        served (snd out) = S (S (S (served w)))
        /\ last (requests_sent (trace (snd out)))
           = Some (session_request "POST"
                     (domain self ++ "/commit/" ++ login ++ "/" ++ package_name
                      ++ "/" ++ release ++ "/" ++ basename)
                     (Some (fst (jencode (PDict {["dist_id" := dist_id]}))))
                     (snd (jencode (PDict {["dist_id" := dist_id]}))) true)).
Proof.
  intros out. subst out.
  destruct (upload_second_request_inv _ _ _ _ _ _ _ _ _ _ _ _ _ Hsent)
    as (-> & Hattrs & res & obj & form & s3url & hex & b64 & n & f'
        & Hnet & Hst & Hjson & Hurl & Hform & Hhash).
  destruct (upload_after_storage self login package_name release basename
              distribution_type description size dependencies attrs channels
              w res s3res obj form s3url hex b64 n f'
              Hattrs Hnet Hst Hjson Hurl Hform Hhash Hs3) as [Hbad Hgood].
  split; [exact Hbad|].
  intros H201 res' obj' dist_id Hnet' Hjson' Hid.
  rewrite Hnet in Hnet'. injection Hnet' as <-.
  rewrite Hjson in Hjson'. injection Hjson' as <-.
  exact (Hgood H201 dist_id Hid).
Qed.

(** X21: the whole of a successful upload: stage accepted, digest computed,
    storage answers 201, commit answers 200 with a JSON body; [upload]
    returns that body after exactly three requests. *)
Lemma upload_succeeds
    (self : Binstar) (login package_name release basename : string)
    (distribution_type description : pyval)
    (size : option Z) (dependencies attrs channels : pyval) (w : world)
    (res s3res res3 : response) (obj form : gmap string pyval)
    (s3url dist_id body : pyval) (hex b64 : string) (n : Z) (f' : file)
    (Hattrs : attrs = PNone \/ is_dict attrs = true)
    (Hnet : net (served w) = Ok res)
    (Hst : status_code res = 200)
    (Hjson : res_json res = Some (PDict obj))
    (Hurl : obj !! "post_url" = Some s3url)
    (Hform : obj !! "form_data" = Some (PDict form))
    (Hid : obj !! "dist_id" = Some dist_id)
    (Hhash : compute_hash (fd w) size = (Ok (hex, b64, n), f'))
    (Hs3 : net (S (served w)) = Ok s3res)
    (H201 : status_code s3res = 201)
    (Hcommit : net (S (S (served w))) = Ok res3)
    (H200 : status_code res3 = 200)
    (Hbody : res_json res3 = Some body) :
  let out := upload self login package_name release basename
               distribution_type description None size dependencies attrs
               channels w in
  fst out = Ok body /\ served (snd out) = S (S (S (served w))).
Proof.
  intros out. subst out.
  transfer_runs Hattrs Hnet Hst Hjson Hurl Hform Hhash Hs3.
  rewrite H201. simpl. rewrite Hid. simpl.
  destruct (jencode _) as [data2 hdrs2]. simpl.
  rewrite Hcommit. simpl.
  assert (Hin2 : status_code res3 ∈ [200])
    by (rewrite H200; apply list_elem_of_here).
  check_passes Hin2. rewrite Hbody. simpl. split; trivial.
Qed.

(** * Further properties of the client *)

(** ** The constructor, for every domain and token *)

Lemma endswith_slash_inv (d : string) :
  endswith d "/" = true -> exists s, d = s ++ "/".
Proof.
  induction d as [|c d IH]; [discriminate|].
  destruct d as [|c' d'].
  - unfold endswith. simpl. intros H.
    destruct (Ascii.eqb_spec c "/") as [->|]; [|discriminate]. now exists "".
  - intros H.
    assert (Hd : endswith (String c' d') "/" = true).
    { unfold endswith in *. simpl in *.
      now rewrite Nat.sub_0_r in *. }
    destruct (IH Hd) as [s Hs]. exists (String c s). rewrite Hs. reflexivity.
Qed.

(** X1: whatever the domain string, the constructor stores it unchanged
    when it does not end in a slash, and otherwise stores the string that
    gives it back when one slash is appended. *)
Theorem init_domain_cases (t : option string) (d : string) (v : bool) :
  (endswith d "/" = false /\ domain (__init__ t d v) = d)
  \/ (endswith d "/" = true /\ d = domain (__init__ t d v) ++ "/").
Proof.
  unfold __init__. simpl.
  destruct (endswith d "/") eqn:Hd; [right | left]; split; trivial.
  destruct (endswith_slash_inv d Hd) as [s ->].
  now rewrite drop_last_append_slash.
Qed.

(** X2: the session of a new client always announces the client version;
    a token that is [None] or empty adds nothing else, any other token is
    sent as [Authorization: token <token>] with the client's user agent; the
    [token] attribute keeps the argument as given. *)
Theorem init_session_headers (t : option string) (d : string) (v : bool) :
  let c := __init__ t d v in
  session_headers c !! "x-binstar-api-version" = Some __version__
  /\ token c = t /\ session_verify c = v
  /\ (truthy t = false ->
      session_headers c
      = <["x-binstar-api-version" := __version__]> default_headers)
  /\ (forall s, t = Some s -> s <> "" ->
      session_headers c !! "Authorization" = Some ("token " ++ s)
      /\ session_headers c !! "User-Agent"
         = Some ("Binstar/" ++ __version__ ++ " (+https://anaconda.org)")
      /\ forall k, k <> "Authorization" -> k <> "User-Agent" ->
           k <> "x-binstar-api-version" ->
           session_headers c !! k = default_headers !! k).
Proof.
  intros c. subst c. unfold __init__. simpl.
  split.
  { destruct (truthy t); simpl;
      rewrite ?lookup_insert_ne by discriminate; apply lookup_insert_eq. }
  split; [reflexivity|]. split; [reflexivity|]. split.
  { intros ->. reflexivity. }
  intros s -> Hs. destruct s as [|a s]; [congruence|]. simpl.
  split; [|split].
  - rewrite lookup_insert_ne by discriminate. apply lookup_insert_eq.
  - apply lookup_insert_eq.
  - intros k H1 H2 H3. now rewrite !lookup_insert_ne by congruence.
Qed.

(** ** The response check *)

(** X3: what [_check_response] returns or raises depends on the status,
    the parsed body and the request line of the response only: neither the
    headers (the advertised API version), nor the raw text, nor the state of
    the world changes it. *)
Theorem check_response_outcome_independent
    (res res' : response) (allowed : list Z) (w w' : world)
    (Hstatus : status_code res = status_code res')
    (Hjson : res_json res = res_json res')
    (Hmethod : request_method res = request_method res')
    (Hurl : request_url res = request_url res') :
  fst (_check_response res allowed w) = fst (_check_response res' allowed w').
Proof.
  destruct (decide (status_code res ∈ allowed)) as [Hin | Hout].
  - rewrite !check_response_allowed; trivial. now rewrite <- Hstatus.
  - rewrite !check_response_disallowed by (rewrite <- ?Hstatus; exact Hout).
    unfold synthesized. now rewrite Hstatus, Hjson, Hmethod, Hurl.
Qed.

(** X4: [_check_response] sends nothing, logs nothing and leaves the file
    alone; it adds one warning to the trace exactly when the version in the
    [x-binstar-api-version] header ([0.2.1] when the header is missing) is
    newer than the client's, whether or not it then raises. *)
Theorem check_response_effect (res : response) (allowed : list Z) (w : world) :
  let w' := snd (_check_response res allowed w) in
  served w' = served w /\ fd w' = fd w
  /\ requests_sent (trace w') = requests_sent (trace w)
  /\ log_lines (trace w') = log_lines (trace w)
  /\ exists m,
       trace w' =
       (trace w ++
        if version_gt
             (pv (default "0.2.1" (res_headers res !! "x-binstar-api-version")))
             (pv __version__)
        then [EvWarn m] else [])%list.
Proof.
  intros w'. subst w'.
  unfold _check_response, bind, emit, ret, raise, lift.
  destruct (version_gt _ _); simpl;
    destruct (bool_decide _); simpl;
    try destruct (default _ (STATUS_CODES !! _));
    try destruct (res_json res) as [[]|]; simpl;
    obs; do 4 (split; [reflexivity|]);
    solve [ eexists; reflexivity
          | exists ""; rewrite ?app_nil_r; reflexivity ].
Qed.

(** ** Methods that are one exchange *)

Lemma json_run (res : response) (w : world) : json res w = (json_body res, w).
Proof. unfold json, json_body. now destruct (res_json res). Qed.

Lemma one_exchange_bind (ok : Z) (result : response -> outcome pyval)
    (rq : request) (k : response -> M pyval)
    (Hk : forall res w, k res w = (result res, w)) (w : world) :
  one_exchange ok result
    (res <- http rq ;; _check_response res [ok] ;; k res) w.
Proof.
  unfold one_exchange, bind. rewrite http_eq.
  destruct (net (served w)) as [res|e] eqn:Hnet; simpl.
  2:{ obs. rewrite length_app. simpl. repeat split; lia. }
  check_any.
  assert (Hlen : length (requests_sent (trace w) ++ [rq])
                 = S (length (requests_sent (trace w))))
    by (rewrite length_app; simpl; lia).
  destruct r as [[]|e]; simpl; rewrite ?Hk; simpl;
    rewrite Hserved, Htrace; obs.
  - repeat split; trivial.
    intros Hne _.
    assert (Hno : status_code res ∉ [ok])
      by (rewrite list_elem_of_singleton; exact Hne).
    specialize (Hout Hno). destruct (res_json res) as [[]|]; discriminate.
  - repeat split; trivial.
    + intros Hst.
      assert (Hyes : status_code res ∈ [ok])
        by (rewrite Hst; apply list_elem_of_here).
      specialize (Hin Hyes). discriminate.
    + intros Hne Hbody.
      assert (Hno : status_code res ∉ [ok])
        by (rewrite list_elem_of_singleton; exact Hne).
      specialize (Hout Hno).
      destruct (res_json res) as [v|] eqn:Hj.
      * specialize (Hbody v eq_refl). destruct v; try discriminate.
        injection Hout as ->. eexists; reflexivity.
      * injection Hout as ->. eexists; reflexivity.
Qed.

(** X5: each read operation ([list_scopes], [authentication],
    [authentications], [user], [user_packages], [package],
    [package_collaborators], [release], [distribution]) and [add_release]
    sends exactly one request, whatever happens.  An exception of the
    transport comes out unchanged; status 200 returns the parsed body, or
    raises [ValueError] when the body is not JSON; any other status raises
    the error of the class of the status. *)
Theorem read_operations_one_exchange
    (self : Binstar) (login package_name version : string)
    (who basename : option string)
    (requirements announce description : pyval) (w : world) :
  one_exchange 200 json_body (list_scopes self) w
  /\ one_exchange 200 json_body (authentication self) w
  /\ one_exchange 200 json_body (authentications self) w
  /\ one_exchange 200 json_body (user self who) w
  /\ one_exchange 200 json_body (user_packages self who) w
  /\ one_exchange 200 json_body (package self login package_name) w
  /\ one_exchange 200 json_body
       (package_collaborators self login package_name) w
  /\ one_exchange 200 json_body (release self login package_name version) w
  /\ one_exchange 200 json_body
       (distribution self login package_name version basename) w
  /\ one_exchange 200 json_body
       (add_release self login package_name version requirements announce
          description) w.
Proof.
  repeat match goal with |- one_exchange _ _ _ _ /\ _ => split end;
    try (apply one_exchange_bind; apply json_run).
  unfold add_release. destruct (jencode _) as [data hdrs].
  apply (one_exchange_bind 200 json_body _ json json_run w).
Qed.

(** X6: [package_add_collaborator], [package_remove_collaborator],
    [remove_package], [remove_release] and [remove_authentication] send
    exactly one request; an exception of the transport comes out unchanged;
    only status 201 makes them return [None]: any other status, 200 and 204
    included, raises the error of its class when the body of the answer is
    not JSON or is a JSON object. *)
Theorem acknowledged_operations_one_exchange
    (self : Binstar) (owner package_name collaborator version : string)
    (auth_name : option string) (w : world) :
  one_exchange 201 (fun _ => Ok PNone)
    (package_add_collaborator self owner package_name collaborator) w
  /\ one_exchange 201 (fun _ => Ok PNone)
       (package_remove_collaborator self owner package_name collaborator) w
  /\ one_exchange 201 (fun _ => Ok PNone)
       (remove_package self owner package_name) w
  /\ one_exchange 201 (fun _ => Ok PNone)
       (remove_release self owner package_name version) w
  /\ one_exchange 201 (fun _ => Ok PNone)
       (remove_authentication self auth_name) w.
Proof.
  repeat match goal with |- one_exchange _ _ _ _ /\ _ => split end;
    apply (one_exchange_bind 201 (fun _ => Ok PNone) _ (fun _ => ret PNone));
    reflexivity.
Qed.

Lemma exchange_request (ok : Z) (rq : request) (k : response -> M pyval)
    (Hk : forall res w, snd (k res w) = w) (w : world) :
  requests_sent
    (trace (snd ((res <- http rq ;; _check_response res [ok] ;; k res) w)))
  = (requests_sent (trace w) ++ [rq])%list.
Proof.
  unfold bind. rewrite http_eq.
  destruct (net (served w)) as [res|e]; simpl; [|obs; reflexivity].
  check_any. destruct r as [[]|e]; simpl; rewrite ?Hk, Htrace; obs;
    reflexivity.
Qed.

(** ** Arguments that are empty or missing *)

(** X7: an empty string counts as no argument: [user('')],
    [user_packages('')] and [remove_authentication('')] run as the calls
    without argument, and [remove_dist(basename='')] runs as the call without
    [basename].  [distribution] without a [basename] formats [None] into the
    path: it runs as [distribution(..., basename='None')]. *)
Theorem falsy_arguments
    (self : Binstar) (login package_name version : string)
    (_id : option string) :
  user self (Some "") = user self None
  /\ user_packages self (Some "") = user_packages self None
  /\ remove_authentication self (Some "") = remove_authentication self None
  /\ remove_dist self login package_name version (Some "") _id
     = remove_dist self login package_name version None _id
  /\ distribution self login package_name version None
     = distribution self login package_name version (Some "None").
Proof. repeat split. Qed.


(** ** [add_package] *)

Lemma truth_insert (k : string) (v : pyval) (d : gmap string pyval) :
  truth (PDict (<[k := v]> d)) = true.
Proof.
  simpl. destruct (map_to_list (<[k := v]> d)) eqn:Hl; [|reflexivity].
  apply map_to_list_empty_iff in Hl.
  now apply insert_non_empty in Hl.
Qed.

(** X9: when [attrs or {}] is a dictionary [d], [add_package] posts one
    request to the package URL whose JSON payload has [public] coerced to a
    boolean, [publish] false, and as [public_attrs] the dictionary [d] with
    ['summary'] and ['license'] set from the arguments (whatever [d] held
    under those keys) and every other key kept. *)
Theorem add_package_payload
    (self : Binstar) (login package_name : string)
    (summary license public license_url attrs : pyval)
    (d : gmap string pyval) (w : world)
    (Hattrs : (if truth attrs then attrs else PDict ∅) = PDict d) :
  let m := add_package self login package_name summary license public
             license_url attrs in
  exists pa : gmap string pyval,
    let payload :=
      PDict (list_to_map [("public", PBool (truth public));
                          ("publish", PBool false);
                          ("public_attrs", PDict pa)]) in
    requests_sent (trace (snd (m w)))
    = (requests_sent (trace w)
       ++ [session_request "POST"
             (domain self ++ "/package/" ++ login ++ "/" ++ package_name)
             (Some (fst (jencode payload))) (snd (jencode payload)) true])%list
    /\ pa !! "summary" = Some summary
    /\ pa !! "license"
       = Some (PDict (list_to_map [("name", license); ("url", license_url)]))
    /\ (forall k, k <> "summary" -> k <> "license" -> pa !! k = d !! k)
    /\ one_exchange 200 json_body m w.
Proof.
  intros m. subst m.
  exists (<["license" := PDict (list_to_map [("name", license);
                                            ("url", license_url)])]>
            (<["summary" := summary]> d)).
  cbv zeta.
  assert (Hrun : forall w', add_package self login package_name summary
                   license public license_url attrs w'
    = (let '(data, headers) :=
         jencode (PDict (list_to_map
           [("public", PBool (truth public)); ("publish", PBool false);
            ("public_attrs",
             PDict (<["license" := PDict (list_to_map [("name", license);
                                                       ("url", license_url)])]>
                      (<["summary" := summary]> d)))])) in
       res <- session_post
                (domain self ++ "/package/" ++ login ++ "/" ++ package_name)
                data headers ;;
       _check_response res [200] ;; json res) w').
  { intros w'. unfold add_package. cbv zeta. rewrite Hattrs.
    unfold bind at 1 2, lift, setitem. cbv iota beta.
    rewrite truth_insert. reflexivity. }
  unfold one_exchange. rewrite !Hrun. clear Hrun.
  destruct (jencode _) as [data hdrs]. simpl fst. simpl snd.
  split; [|split; [|split; [|split]]].
  - apply (exchange_request 200 _ json). intros res w'. now rewrite json_run.
  - rewrite lookup_insert_ne by discriminate. apply lookup_insert_eq.
  - apply lookup_insert_eq.
  - intros k H1 H2. now rewrite !lookup_insert_ne by congruence.
  - apply (one_exchange_bind 200 json_body _ json json_run w).
Qed.

(** X10: [add_package] has no type check of its own: an [attrs] that is
    true but not a dictionary (a non-empty list or string, a number) fails
    at [attrs['summary'] = summary] with [TypeError], before anything is
    sent. *)
Theorem add_package_attrs_not_dict
    (self : Binstar) (login package_name : string)
    (summary license public license_url attrs : pyval) (w : world)
    (Htrue : truth attrs = true) (Hdict : is_dict attrs = false) :
  exists msg,
    add_package self login package_name summary license public license_url
      attrs w = (Raise (TypeError msg), w).
Proof.
  unfold add_package. cbv zeta. rewrite Htrue.
  destruct attrs; try discriminate; eexists; reflexivity.
Qed.

(** ** More on [download] *)

(** X11: [download] sends one GET of the download URL through the session,
    with redirects switched off, and at most one more request: a streamed
    GET of the [location] header, sent outside the session (so without its
    [Authorization] header), and only after a 302 answer that has that
    header. *)
Theorem download_requests
    (self : Binstar) (login package_name version basename : string)
    (md5 : option string) (w : world) :
  let out := download self login package_name version basename md5 w in
  exists rq1 : request,
    via_session rq1 = true /\ allow_redirects rq1 = false
    /\ method rq1 = "GET"
    /\ url rq1 = PStr (domain self ++ "/download/" ++ login ++ "/"
                       ++ package_name ++ "/" ++ version ++ "/" ++ basename)
    /\ data rq1 = None
    /\ (requests_sent (trace (snd out)) = (requests_sent (trace w) ++ [rq1])%list
        \/ exists res location,
             net (served w) = Ok res /\ status_code res = 302
             /\ res_headers res !! "location" = Some location
             /\ requests_sent (trace (snd out))
                = (requests_sent (trace w)
                   ++ [rq1; mkRequest false "GET" (PStr location) None ∅
                                      true true None None])%list).
Proof.
  intros out. subst out. unfold download.
  set (hd := if truthy md5 then _ else _).
  set (u := (domain self ++ _)%string).
  exists (session_request "GET" u None hd false).
  split; [reflexivity|]. split; [reflexivity|].
  split; [reflexivity|]. split; [reflexivity|]. split; [reflexivity|].
  unfold_ops.
  destruct (net (served w)) as [res|e] eqn:Hnet; simpl;
    [|left; obs; reflexivity].
  check_any. clear Hin Hout.
  destruct r as [[]|e]; simpl; [|left; rewrite Htrace; obs; reflexivity].
  destruct (Z.eqb_spec (status_code res) 304); simpl;
    [left; rewrite Htrace; obs; reflexivity|].
  destruct (Z.eqb_spec (status_code res) 302) as [H302|]; simpl;
    [|left; rewrite Htrace; obs; reflexivity].
  destruct (res_headers res !! "location") as [location|] eqn:Hloc; simpl;
    [|left; rewrite Htrace; obs; reflexivity].
  right. exists res, location. repeat split; trivial.
  destruct (net (served w0)); simpl; rewrite Htrace; obs;
    now rewrite <- app_assoc.
Qed.

(** X12: a 302 answer without a [location] header makes [download] raise
    [KeyError('location')] after its one request. *)
Theorem download_redirect_without_location
    (self : Binstar) (login package_name version basename : string)
    (md5 : option string) (w : world) (res : response)
    (Hnet : net (served w) = Ok res)
    (Hst : status_code res = 302)
    (Hloc : res_headers res !! "location" = None) :
  let out := download self login package_name version basename md5 w in
  fst out = Raise (KeyError "location")
  /\ served (snd out) = S (served w).
Proof.
  intros out. subst out. unfold download. unfold_ops. rewrite Hnet. simpl.
  assert (Hin : status_code res ∈ [302; 304])
    by (rewrite Hst; apply list_elem_of_here).
  check_passes Hin. rewrite Hst. simpl. rewrite Hloc. simpl.
  split; [reflexivity | exact Hserved].
Qed.

(** X13: the answer of the redirect target is not checked: after a 302
    with a [location], [download] returns the handle of the second answer
    whatever its status (a 404 or 500 of the target is not raised), and warns
    about nothing in it. *)
Theorem download_redirect_unchecked
    (self : Binstar) (login package_name version basename : string)
    (md5 : option string) (w : world) (res res2 : response)
    (location : string)
    (Hnet : net (served w) = Ok res)
    (Hst : status_code res = 302)
    (Hloc : res_headers res !! "location" = Some location)
    (Hnet2 : net (S (served w)) = Ok res2) :
  let out := download self login package_name version basename md5 w in
  fst out = Ok (Some res2)
  /\ served (snd out) = S (S (served w))
  /\ last (trace (snd out))
     = Some (EvHttp (mkRequest false "GET" (PStr location) None ∅ true true
                               None None) (Ok res2)).
Proof.
  intros out. subst out. unfold download. unfold_ops. rewrite Hnet. simpl.
  assert (Hin : status_code res ∈ [302; 304])
    by (rewrite Hst; apply list_elem_of_here).
  check_passes Hin. rewrite Hst. simpl. rewrite Hloc. simpl.
  rewrite Hserved, Hnet2. simpl.
  split; [reflexivity|]. split; [reflexivity|]. apply last_snoc.
Qed.

(** ** More on [upload] *)

(** The stage POST is answered by [res] with status 200: run [upload] up to
    [res.json()]. *)
Ltac stage_checked Hattrs Hnet Hst :=
  unfold upload; cbv zeta;
  rewrite (attrs_default_dict _ Hattrs); simpl;
  destruct (jencode _) as [data hdrs];
  unfold_ops; rewrite Hnet; simpl;
  let Hin := fresh "Hin" in
  assert (Hin : status_code _ ∈ [200]) by (rewrite Hst; apply list_elem_of_here);
  check_passes Hin.

(** X14: a stage answer with status 200 that is not what [upload] expects
    stops it after the one request, before any hashing: a body that is not
    JSON raises [ValueError], a JSON value that is not an object raises
    [TypeError], an object without ['post_url'] or without ['form_data']
    raises [KeyError] of that key. *)
Theorem upload_malformed_stage_answer
    (self : Binstar) (login package_name version basename : string)
    (distribution_type description : pyval) (md5 : option string)
    (size : option Z) (dependencies attrs channels : pyval) (w : world)
    (res : response)
    (Hattrs : attrs = PNone \/ is_dict attrs = true)
    (Hnet : net (served w) = Ok res)
    (Hst : status_code res = 200) :
  let out := upload self login package_name version basename
               distribution_type description md5 size dependencies attrs
               channels w in
  let stopped (e : exn) :=
    fst out = Raise e /\ served (snd out) = S (served w)
    /\ hash_calls (trace (snd out)) = hash_calls (trace w) in
  (res_json res = None ->
     stopped (ValueError "No JSON object could be decoded"))
  /\ (forall v, res_json res = Some v -> is_dict v = false ->
      exists msg, stopped (TypeError msg))
  /\ (forall obj, res_json res = Some (PDict obj) ->
      obj !! "post_url" = None -> stopped (KeyError "post_url"))
  /\ (forall obj s3url, res_json res = Some (PDict obj) ->
      obj !! "post_url" = Some s3url -> obj !! "form_data" = None ->
      stopped (KeyError "form_data")).
Proof.
  intros out stopped. subst out stopped. cbv beta.
  split; [|split; [|split]].
  - intros Hjson. stage_checked Hattrs Hnet Hst. rewrite Hjson. simpl.
    rewrite Htrace. obs. repeat split; trivial.
  - intros v Hjson Hv. stage_checked Hattrs Hnet Hst. rewrite Hjson. simpl.
    destruct v; try discriminate; simpl; eexists;
      rewrite Htrace; obs; repeat split; trivial.
  - intros obj Hjson Hurl. stage_checked Hattrs Hnet Hst.
    rewrite Hjson. simpl. rewrite Hurl. simpl.
    rewrite Htrace. obs. repeat split; trivial.
  - intros obj s3url Hjson Hurl Hform. stage_checked Hattrs Hnet Hst.
    rewrite Hjson. simpl. rewrite Hurl. simpl. rewrite Hform. simpl.
    rewrite Htrace. obs. repeat split; trivial.
Qed.

(** X15: a ['form_data'] that is not a dictionary is found out only at
    [s3data['Content-Length'] = size]: without a supplied digest the stream
    has been hashed by then; [upload] raises [TypeError], hands nothing to
    the encoder and sends nothing to the storage. *)
Theorem upload_form_data_not_dict
    (self : Binstar) (login package_name version basename : string)
    (distribution_type description : pyval)
    (size : option Z) (dependencies attrs channels : pyval) (w : world)
    (res : response) (obj : gmap string pyval) (s3url s3data : pyval)
    (hex b64 : string) (n : Z) (f' : file)
    (Hattrs : attrs = PNone \/ is_dict attrs = true)
    (Hnet : net (served w) = Ok res)
    (Hst : status_code res = 200)
    (Hjson : res_json res = Some (PDict obj))
    (Hurl : obj !! "post_url" = Some s3url)
    (Hform : obj !! "form_data" = Some s3data)
    (Hnot : is_dict s3data = false)
    (Hhash : compute_hash (fd w) size = (Ok (hex, b64, n), f')) :
  let out := upload self login package_name version basename
               distribution_type description None size dependencies attrs
               channels w in
  (exists msg, fst out = Raise (TypeError msg))
  /\ hash_calls (trace (snd out)) = (hash_calls (trace w) ++ [size])%list
  /\ encoder_calls (trace (snd out)) = encoder_calls (trace w)
  /\ served (snd out) = S (served w).
Proof.
  intros out. subst out. stage_checked Hattrs Hnet Hst.
  rewrite Hjson. simpl. rewrite Hurl. simpl. rewrite Hform. simpl.
  rewrite Hfd, Hhash. simpl.
  destruct s3data; try discriminate; simpl;
    rewrite Htrace; obs; (split; [eexists; reflexivity|]);
    repeat split; trivial.
Qed.

(** X16: an exception of the transport during the storage POST comes out
    of [upload] as it is (it is not turned into the upload error); nothing
    is logged and no commit POST follows. *)
Theorem upload_storage_transport_failure
    (self : Binstar) (login package_name version basename : string)
    (distribution_type description : pyval) (md5 : option string)
    (size : option Z) (dependencies attrs channels : pyval) (w : world)
    (e : exn)
    (Hsent : (S (served w) <
              served (snd (upload self login package_name version basename
                             distribution_type description md5 size
                             dependencies attrs channels w)))%nat)
    (Hs3 : net (S (served w)) = Raise e) :
  let out := upload self login package_name version basename
               distribution_type description md5 size dependencies attrs
               channels w in
  fst out = Raise e
  /\ log_lines (trace (snd out)) = log_lines (trace w)
  /\ served (snd out) = S (S (served w)).
Proof.
  intros out. subst out.
  destruct (upload_second_request_inv _ _ _ _ _ _ _ _ _ _ _ _ _ Hsent)
    as (-> & Hattrs & res & obj & form & s3url & hex & b64 & n & f'
        & Hnet & Hst & Hjson & Hurl & Hform & Hhash).
  clear Hsent.
  transfer_runs Hattrs Hnet Hst Hjson Hurl Hform Hhash Hs3.
  rewrite Htrace. obs. repeat split; reflexivity.
Qed.


(** X18: once the storage answered 201 and the stage answer has a
    ['dist_id'], the rest of [upload] is the commit exchange: three requests
    have been sent; the exception of the transport comes out as it is,
    status 200 returns the parsed body (or [ValueError]), and any other
    status raises the error of its class when the body of the answer is not
    JSON or is a JSON object. *)
Theorem upload_commit_exchange
    (self : Binstar) (login package_name version basename : string)
    (distribution_type description : pyval) (md5 : option string)
    (size : option Z) (dependencies attrs channels : pyval) (w : world)
    (res s3res : response) (obj : gmap string pyval) (dist_id : pyval)
    (Hsent : (S (served w) <
              served (snd (upload self login package_name version basename
                             distribution_type description md5 size
                             dependencies attrs channels w)))%nat)
    (Hs3 : net (S (served w)) = Ok s3res)
    (H201 : status_code s3res = 201)
    (Hnet : net (served w) = Ok res)
    (Hjson : res_json res = Some (PDict obj))
    (Hid : obj !! "dist_id" = Some dist_id) :
  let out := upload self login package_name version basename
               distribution_type description md5 size dependencies attrs
               channels w in
  served (snd out) = S (S (S (served w)))
  /\ match net (S (S (served w))) with
     | Raise e => fst out = Raise e
     | Ok res3 =>
         (status_code res3 = 200 -> fst out = json_body res3)
         /\ (status_code res3 <> 200 ->
             (forall v, res_json res3 = Some v -> is_dict v = true) ->
             exists msg,
               fst out = Raise (ApiError (error_class (status_code res3)) msg
                                         (status_code res3)))
     end.
Proof.
  intros out. subst out.
  destruct (upload_second_request_inv _ _ _ _ _ _ _ _ _ _ _ _ _ Hsent)
    as (-> & Hattrs & res' & obj' & form & s3url & hex & b64 & n & f'
        & Hnet' & Hst & Hjson' & Hurl & Hform & Hhash).
  clear Hsent.
  rewrite Hnet in Hnet'. injection Hnet' as <-.
  rewrite Hjson in Hjson'. injection Hjson' as <-.
  transfer_runs Hattrs Hnet Hst Hjson Hurl Hform Hhash Hs3.
  rewrite H201. simpl. rewrite Hid. simpl.
  destruct (jencode _) as [data2 hdrs2]. simpl.
  destruct (net (S (S (served w)))) as [res3|e]; simpl;
    [|split; reflexivity].
  check_any.
  destruct r as [[]|e]; simpl.
  - assert (Hrefused : status_code res3 <> 200 -> False).
    { intros Hne.
      assert (Hno : status_code res3 ∉ [200])
        by (rewrite list_elem_of_singleton; exact Hne).
      specialize (Hout Hno). destruct (res_json res3) as [[]|]; discriminate. }
    unfold json_body.
    destruct (res_json res3); simpl;
      (split; [exact Hserved0|]); (split; [reflexivity|]);
      intros Hne; destruct (Hrefused Hne).
  - split; [exact Hserved0|]. split.
    + intros H200.
      assert (Hyes : status_code res3 ∈ [200])
        by (rewrite H200; apply list_elem_of_here).
      specialize (Hin0 Hyes). discriminate.
    + intros Hne Hbody.
      assert (Hno : status_code res3 ∉ [200])
        by (rewrite list_elem_of_singleton; exact Hne).
      specialize (Hout Hno).
      destruct (res_json res3) as [v|] eqn:Hj.
      * specialize (Hbody v eq_refl). destruct v; try discriminate.
        injection Hout as ->. eexists; reflexivity.
      * injection Hout as ->. eexists; reflexivity.
Qed.

(** X19: the storage POST is sent outside the session (so without the
    session's [Authorization] header), to the ['post_url'] of the stage
    answer, with a timeout of ten hours and the TLS policy of the session. *)
Theorem upload_storage_request
    (self : Binstar) (login package_name version basename : string)
    (distribution_type description : pyval) (md5 : option string)
    (size : option Z) (dependencies attrs channels : pyval) (w : world)
    (Hsent : (S (served w) <
              served (snd (upload self login package_name version basename
                             distribution_type description md5 size
                             dependencies attrs channels w)))%nat) :
  let out := upload self login package_name version basename
               distribution_type description md5 size dependencies attrs
               channels w in
  exists rq : request,
    requests_sent (trace (snd out)) !! S (length (requests_sent (trace w)))
    = Some rq
    /\ via_session rq = false /\ method rq = "POST"
    /\ timeout rq = Some 36000
    /\ verify rq = Some (session_verify self)
    /\ forall res obj s3url,
         net (served w) = Ok res -> res_json res = Some (PDict obj) ->
         obj !! "post_url" = Some s3url -> url rq = s3url.
Proof.
  intros out. subst out.
  destruct (upload_second_request_inv _ _ _ _ _ _ _ _ _ _ _ _ _ Hsent)
    as (-> & Hattrs & res & obj & form & s3url & hex & b64 & n & f'
        & Hnet & Hst & Hjson & Hurl & Hform & Hhash).
  clear Hsent.
  destruct (net (S (served w))) as [s3res|e] eqn:Hs3;
    transfer_runs Hattrs Hnet Hst Hjson Hurl Hform Hhash Hs3;
    exists (mkRequest false "POST" s3url (Some data_stream) headers true false
              (Some 36000) (Some (session_verify self)));
    (split; [|repeat split; trivial;
              intros res' obj' u [= <-] Hj Hu; rewrite Hjson in Hj;
              injection Hj as <-; simpl; congruence]).
  - destruct (status_code s3res =? 201); simpl.
    + destruct (obj !! "dist_id"); simpl.
      * destruct (jencode _) as [data2 hdrs2]. simpl.
        destruct (net (S (S (served w)))); simpl.
        -- check_any. destruct r as [[]|]; simpl;
             [destruct (res_json a); simpl|];
             rewrite Htrace0; simpl; rewrite Htrace; obs;
             rewrite <- !app_assoc; simpl;
             rewrite lookup_app_r by lia;
             replace (S (length (requests_sent (trace w)))
                      - length (requests_sent (trace w)))%nat with 1%nat by lia;
             reflexivity.
        -- rewrite Htrace; obs;
             rewrite <- !app_assoc; simpl;
             rewrite lookup_app_r by lia;
             replace (S (length (requests_sent (trace w)))
                      - length (requests_sent (trace w)))%nat with 1%nat by lia;
             reflexivity.
      * rewrite Htrace; obs;
          rewrite <- !app_assoc; simpl;
          rewrite lookup_app_r by lia;
          replace (S (length (requests_sent (trace w)))
                   - length (requests_sent (trace w)))%nat with 1%nat by lia;
          reflexivity.
    + rewrite Htrace; obs;
        rewrite <- !app_assoc; simpl;
        rewrite lookup_app_r by lia;
        replace (S (length (requests_sent (trace w)))
                 - length (requests_sent (trace w)))%nat with 1%nat by lia;
        reflexivity.
  - rewrite Htrace; obs;
      rewrite <- !app_assoc; simpl;
      rewrite lookup_app_r by lia;
      replace (S (length (requests_sent (trace w)))
               - length (requests_sent (trace w)))%nat with 1%nat by lia;
      reflexivity.
Qed.

(** X20: whatever the answers, one call of [upload] sends at most three
    requests, hashes the stream at most once and calls the encoder at most
    once: nothing is retried. *)
Theorem upload_effect_bounds
    (self : Binstar) (login package_name version basename : string)
    (distribution_type description : pyval) (md5 : option string)
    (size : option Z) (dependencies attrs channels : pyval) (w : world) :
  let out := upload self login package_name version basename
               distribution_type description md5 size dependencies attrs
               channels w in
  (served w <= served (snd out) <= served w + 3)%nat
  /\ (length (hash_calls (trace (snd out)))
      <= S (length (hash_calls (trace w))))%nat
  /\ (length (encoder_calls (trace (snd out)))
      <= S (length (encoder_calls (trace w))))%nat.
Proof.
  intros out. subst out. unfold upload. cbv zeta.
  destruct (is_dict _); simpl; [|lia].
  destruct (jencode _) as [data hdrs].
  unfold_ops.
  destruct (net (served w)) as [res|e]; simpl; [|obs; lia].
  check_any. clear Hin Hout.
  destruct r as [[]|e]; simpl; [|rewrite Htrace; obs; lia].
  destruct (res_json res) as [v|]; simpl; [|rewrite Htrace; obs; lia].
  destruct (getitem v "post_url") as [s3url|]; simpl;
    [|rewrite Htrace; obs; lia].
  destruct (getitem v "form_data") as [s3data|]; simpl;
    [|rewrite Htrace; obs; lia].
  destruct md5 as [m|]; simpl.
  { destruct size as [n|]; simpl.
    - destruct (setitem s3data _ _); simpl; rewrite Htrace; obs; lia.
    - rewrite Hfd. destruct (seekable (fd w)) eqn:Hseek; simpl;
        repeat (rewrite ?Hfd, ?Hseek; simpl);
        [destruct (setitem s3data _ _); simpl|];
        rewrite ?Htrace; obs; lia. }
  rewrite Hfd.
  destruct (compute_hash (fd w) size) as [[[[hex b64] n]|e] f']; simpl;
    [|rewrite Htrace; obs; rewrite ?length_app; simpl; lia].
  destruct (setitem s3data "Content-Length" (PInt n)) as [s3data1|]; simpl;
    [|rewrite Htrace; obs; rewrite ?length_app; simpl; lia].
  destruct (setitem s3data1 "Content-MD5" (PStr b64)) as [s3data2|]; simpl;
    [|rewrite Htrace; obs; rewrite ?length_app; simpl; lia].
  match goal with
  | |- context [stream_multipart ?a ?b ?c] =>
      destruct (stream_multipart a b c) as [data_stream headers]
  end.
  simpl. rewrite ?Hserved.
  destruct (net (S (served w))) as [s3res|e]; simpl;
    [|rewrite Htrace; obs; rewrite ?length_app; simpl; lia].
  destruct (status_code s3res =? 201); simpl;
    [|rewrite Htrace; obs; rewrite ?length_app; simpl; lia].
  destruct (getitem v "dist_id") as [dist_id|]; simpl;
    [|rewrite Htrace; obs; rewrite ?length_app; simpl; lia].
  destruct (jencode _) as [data2 hdrs2]. simpl.
  destruct (net (S (S (served w)))) as [res3|e]; simpl;
    [|rewrite Htrace; obs; rewrite ?length_app; simpl; lia].
  check_any. clear Hin Hout.
  destruct r as [[]|e]; simpl; [destruct (res_json res3); simpl|];
    rewrite Hserved0, Htrace0; simpl; rewrite Htrace; obs;
    rewrite ?length_app; simpl; lia.
Qed.

End ClientProperties.

(** * The properties at concrete inputs *)

(** The default domain, with and without its slash. *)
Lemma init_strips_one_trailing_slash_witness :
  endswith "https://api.anaconda.org" "/" = false
  /\ (__init__ (E := Demo.env []) None "https://api.anaconda.org/" true
      = __init__ (E := Demo.env []) None "https://api.anaconda.org" true
      /\ domain (__init__ (E := Demo.env []) None "https://api.anaconda.org" true)
         = "https://api.anaconda.org"
      /\ domain (__init__ (E := Demo.env []) None
                          "https://api.anaconda.org//" true)
         = "https://api.anaconda.org/").
Proof.
  split; [reflexivity|].
  apply (init_strips_one_trailing_slash (E := Demo.env []) None
           "https://api.anaconda.org" true).
  reflexivity.
Defined.

(** [attrs='build=1'], a string. *)
Lemma upload_attrs_must_be_dict_witness :
  Demo.upload_with [] None None (PStr "build=1")
    = (Raise (TypeError "argument attrs must be a dictionary"), Demo.w0)
  /\ Demo.upload_with [] None None PNone
     = Demo.upload_with [] None None (PDict ∅).
Proof.
  apply (upload_attrs_must_be_dict (E := Demo.env [])).
  - discriminate.
  - reflexivity.
Defined.

(** A package removed with 201, a distribution removed with 200 and a body. *)
Lemma delete_operations_result_witness :
  fst (remove_package (E := Demo.env [Ok (Demo.text_response 201 "")])
         Demo.client "u" "p" Demo.w0) = Ok PNone
  /\ fst (remove_dist (E := Demo.env [Ok Demo.removed]) Demo.client
            "u" "p" "1.0" (Some "p-1.0.tar.bz2") None Demo.w0)
     = Ok (PDict {["removed" := PBool true]}).
Proof.
  split.
  - apply (proj1 (delete_operations_result
                    (E := Demo.env [Ok (Demo.text_response 201 "")])
                    Demo.client "u" "p" "1.0" None None None
                    Demo.w0 (Demo.text_response 201 "") eq_refl)).
    reflexivity.
  - apply (proj2 (delete_operations_result (E := Demo.env [Ok Demo.removed])
                    Demo.client "u" "p" "1.0" None (Some "p-1.0.tar.bz2") None
                    Demo.w0 Demo.removed eq_refl));
      reflexivity.
Defined.

(** C8 fails for [remove_dist]: the server answers the DELETE with the
    allowed status 200 and a JSON body, and the call returns that body, not
    [None]. *)
Lemma remove_dist_returns_body :
  status_code Demo.removed ∈ [200]
  /\ fst (remove_dist (E := Demo.env [Ok Demo.removed]) Demo.client
            "u" "p" "1.0" (Some "p-1.0.tar.bz2") None Demo.w0)
     = Ok (PDict {["removed" := PBool true]})
  /\ fst (remove_dist (E := Demo.env [Ok Demo.removed]) Demo.client
            "u" "p" "1.0" (Some "p-1.0.tar.bz2") None Demo.w0)
     <> Ok PNone.
Proof.
  split; [apply list_elem_of_here|].
  split; [vm_compute; reflexivity|].
  vm_compute. discriminate.
Qed.

(** A 404 whose body is the empty JSON object, checked against [[200]]. *)
Lemma check_response_classifies_witness :
  let r := fst (_check_response (E := Demo.env []) Demo.not_found_object
                  [200] Demo.w0) in
  (404 ∈ [200] -> r = Ok tt)
  /\ (404 ∉ [200] ->
      exists cls msg,
        r = Raise (ApiError cls msg 404)
        /\ (404 = 401 -> cls = Unauthorized)
        /\ (404 = 404 -> cls = NotFound)
        /\ (404 = 409 -> cls = Conflict)
        /\ (500 <= 404 -> cls = ServerError)
        /\ (404 <> 401 -> 404 <> 404 -> 404 <> 409 -> 404 < 500 ->
            cls = BinstarError)
        /\ (forall d m, Some (PDict ∅) = Some (PDict d) ->
                        d !! "error" = Some m -> msg = m)
        /\ (Some (PDict ∅) = None
            \/ (exists d, Some (PDict ∅) = Some (PDict d) /\ d !! "error" = None) ->
            msg = PStr
              ("Not Found" ++ ": " ++ "Nothing matches the given URI"
               ++ " ([" ++ "GET" ++ "] " ++ "https://api.anaconda.org/package/u/p"
               ++ " -> " ++ "404" ++ ")"))).
Proof.
  apply (check_response_classifies (E := Demo.env []) Demo.not_found_object
           [200] Demo.w0).
  intros v [= <-]. reflexivity.
Defined.

(** C5 fails as worded: the body of this 404 parses as JSON (the empty
    object) yet has no ['error'] entry, so the message is the synthesized
    one; and the synthesized text has no blank before its colon. *)
Lemma check_response_message_counterexample :
  res_json Demo.not_found_object = Some (PDict ∅)
  /\ (∅ : gmap string pyval) !! "error" = None
  /\ fst (_check_response (E := Demo.env []) Demo.not_found_object [200]
            Demo.w0)
     = Raise (ApiError NotFound
         (PStr "Not Found: Nothing matches the given URI ([GET] https://api.anaconda.org/package/u/p -> 404)")
         404)
  /\ "Not Found: Nothing matches the given URI ([GET] https://api.anaconda.org/package/u/p -> 404)"
     <> "Not Found : Nothing matches the given URI ([GET] https://api.anaconda.org/package/u/p -> 404)".
Proof.
  split; [reflexivity|]. split; [reflexivity|].
  split; [vm_compute; reflexivity|]. discriminate.
Qed.

(** An upload with [md5] and [size=0] supplied, the stage POST accepted. *)
Lemma upload_supplied_digest_unbound_witness :
  let out := Demo.upload_with [Ok (Demo.staged Demo.form)]
               (Some "1B2M2Y8AsgTpgAmY7PhCfg==") (Some 0) PNone in
  fst out = Raise (UnboundLocalError "b64md5")
  /\ hash_calls (trace (snd out)) = hash_calls (trace Demo.w0)
  /\ encoder_calls (trace (snd out)) = encoder_calls (trace Demo.w0)
  /\ served (snd out) = S (served Demo.w0).
Proof.
  apply (upload_supplied_digest_unbound
           (E := Demo.env [Ok (Demo.staged Demo.form)])
           Demo.client "u" "p" "1.0" "p-1.0.tar.bz2" (PStr "conda") (PStr "")
           "1B2M2Y8AsgTpgAmY7PhCfg==" (Some 0) PNone PNone
           (PTuple [PStr "main"]) Demo.w0 (Demo.staged Demo.form)
           (list_to_map [("post_url", PStr "https://s3/x");
                         ("form_data", PDict Demo.form);
                         ("dist_id", PStr "abc")])
           Demo.form (PStr "https://s3/x")).
  - left; reflexivity.
  - reflexivity.
  - reflexivity.
  - reflexivity.
  - vm_compute; reflexivity.
  - vm_compute; reflexivity.
  - discriminate.
Defined.

(** The stage POST answered by 409 with a JSON list as body. *)
Lemma upload_stage_error_body_not_object_witness :
  let out := Demo.upload_with [Ok Demo.conflict_list] None None PNone in
  fst out = Raise (AttributeError "get")
  /\ served (snd out) = S (served Demo.w0).
Proof.
  apply (upload_stage_error_body_not_object
           (E := Demo.env [Ok Demo.conflict_list])
           Demo.client "u" "p" "1.0" "p-1.0.tar.bz2" (PStr "conda") (PStr "")
           None None PNone PNone (PTuple [PStr "main"]) Demo.w0
           Demo.conflict_list (PList [PStr "already staged"])).
  - left; reflexivity.
  - reflexivity.
  - discriminate.
  - reflexivity.
  - reflexivity.
Defined.

(** The download GET answered by 404 with the JSON body [[]]. *)
Lemma download_error_body_not_object_witness :
  fst (Demo.download_with [Ok Demo.not_found_list] (Some "abc123"))
    = Raise (AttributeError "get").
Proof.
  apply (download_error_body_not_object
           (E := Demo.env [Ok Demo.not_found_list])
           Demo.client "u" "p" "1.0" "p-1.0.tar.bz2" (Some "abc123") Demo.w0
           Demo.not_found_list (PList [])).
  - reflexivity.
  - discriminate.
  - discriminate.
  - reflexivity.
  - reflexivity.
Defined.

(** The same stage answer met with and without a supplied digest: without,
    the encoder receives the form with the two keys set; with one, nothing
    reaches the encoder and [b64md5] is unbound. *)
Lemma upload_form_data_handover_witness :
  (let out := Demo.upload_with [Ok (Demo.staged Demo.form)]
                (Some "1B2M2Y8AsgTpgAmY7PhCfg==") (Some 0) PNone in
   encoded_during Demo.w0 (snd out) = []
   /\ (exists e, fst out = Raise e)
   /\ (Some 0 <> None \/ seekable (fd Demo.w0) = true ->
       fst out = Raise (UnboundLocalError "b64md5")))
  /\ (let out := Demo.upload_with [Ok (Demo.staged Demo.form); Ok Demo.slow_down]
                   None None PNone in
      exists d : gmap string pyval,
        encoded_during Demo.w0 (snd out) = [(PDict d, "p-1.0.tar.bz2")]
        /\ d !! "Content-Length" = Some (PInt 0)
        /\ d !! "Content-MD5" = Some (PStr "1B2M2Y8AsgTpgAmY7PhCfg==")
        /\ forall k, k <> "Content-Length" -> k <> "Content-MD5" ->
                     d !! k = Demo.form !! k).
Proof.
  split.
  - apply (upload_form_data_handover
             (E := Demo.env [Ok (Demo.staged Demo.form)])
             Demo.client "u" "p" "1.0" "p-1.0.tar.bz2" (PStr "conda") (PStr "")
             (Some "1B2M2Y8AsgTpgAmY7PhCfg==") (Some 0) PNone PNone
             (PTuple [PStr "main"]) Demo.w0 (Demo.staged Demo.form)
             (list_to_map [("post_url", PStr "https://s3/x");
                           ("form_data", PDict Demo.form);
                           ("dist_id", PStr "abc")])
             Demo.form (PStr "https://s3/x")
             (or_introl eq_refl) eq_refl eq_refl eq_refl
             ltac:(vm_compute; reflexivity) ltac:(vm_compute; reflexivity)).
  - apply (upload_form_data_handover
             (E := Demo.env [Ok (Demo.staged Demo.form); Ok Demo.slow_down])
             Demo.client "u" "p" "1.0" "p-1.0.tar.bz2" (PStr "conda") (PStr "")
             None None PNone PNone
             (PTuple [PStr "main"]) Demo.w0 (Demo.staged Demo.form)
             (list_to_map [("post_url", PStr "https://s3/x");
                           ("form_data", PDict Demo.form);
                           ("dist_id", PStr "abc")])
             Demo.form (PStr "https://s3/x")
             (or_introl eq_refl) eq_refl eq_refl eq_refl
             ltac:(vm_compute; reflexivity) ltac:(vm_compute; reflexivity)
             "d41d8cd98f00b204e9800998ecf8427e" "1B2M2Y8AsgTpgAmY7PhCfg==" 0
             (fd Demo.w0) eq_refl).
Defined.

(** An upload without digest: the encoder receives the three keys of the
    stage answer, ['Content-Length'] overwritten, and ['Content-MD5']. *)
Lemma upload_form_data_frame_witness :
  exists (res : response) (obj form d : gmap string pyval)
         (hex b64 : string) (n : Z),
    Demo.scripted [Ok (Demo.staged Demo.form); Ok Demo.slow_down] 0 = Ok res
    /\ res_json res = Some (PDict obj)
    /\ obj !! "form_data" = Some (PDict form)
    /\ fst (Demo.hash_stub (fd Demo.w0) None) = Ok (hex, b64, n)
    /\ PDict (<["Content-MD5" := PStr "1B2M2Y8AsgTpgAmY7PhCfg=="]>
                (<["Content-Length" := PInt 0]> Demo.form)) = PDict d
    /\ "p-1.0.tar.bz2" = "p-1.0.tar.bz2"
    /\ d !! "Content-Length" = Some (PInt n)
    /\ d !! "Content-MD5" = Some (PStr b64)
    /\ forall k, k <> "Content-Length" -> k <> "Content-MD5" ->
                 d !! k = form !! k.
Proof.
  apply (upload_form_data_frame
           (E := Demo.env [Ok (Demo.staged Demo.form); Ok Demo.slow_down])
           Demo.client "u" "p" "1.0" "p-1.0.tar.bz2" (PStr "conda") (PStr "")
           None None PNone PNone (PTuple [PStr "main"]) Demo.w0).
  vm_compute. apply list_elem_of_here.
Defined.

(** The storage backend answers 503 in one run and 201 in another. *)
Lemma upload_storage_status_witness :
  (let out := Demo.upload_with [Ok (Demo.staged Demo.form); Ok Demo.slow_down]
                None None PNone in
   fst out = Raise (ApiError BinstarError (PStr "Error uploading package") 503)
   /\ log_lines (trace (snd out))
      = ["<Error><Code>SlowDown</Code></Error>"; ""; ""]
   /\ served (snd out) = 2%nat)
  /\ (let out := Demo.upload_with
                   [Ok (Demo.staged Demo.form); Ok (Demo.text_response 201 "")]
                   None None PNone in
      served (snd out) = 3%nat
      /\ last (requests_sent (trace (snd out)))
         = Some (session_request "POST"
                   "https://api.anaconda.org/commit/u/p/1.0/p-1.0.tar.bz2"
                   (Some "{}") {["Content-Type" := "application/json"]} true)).
Proof.
  split.
  - apply (proj1 (upload_storage_status
             (E := Demo.env [Ok (Demo.staged Demo.form); Ok Demo.slow_down])
             Demo.client "u" "p" "1.0" "p-1.0.tar.bz2" (PStr "conda") (PStr "")
             None None PNone PNone (PTuple [PStr "main"]) Demo.w0
             Demo.slow_down ltac:(vm_compute; lia) eq_refl)).
    discriminate.
  - apply (proj2 (upload_storage_status
             (E := Demo.env [Ok (Demo.staged Demo.form);
                             Ok (Demo.text_response 201 "")])
             Demo.client "u" "p" "1.0" "p-1.0.tar.bz2" (PStr "conda") (PStr "")
             None None PNone PNone (PTuple [PStr "main"]) Demo.w0
             (Demo.text_response 201 "") ltac:(vm_compute; lia) eq_refl)
             eq_refl (Demo.staged Demo.form)
             (list_to_map [("post_url", PStr "https://s3/x");
                           ("form_data", PDict Demo.form);
                           ("dist_id", PStr "abc")])
             (PStr "abc") eq_refl eq_refl).
    vm_compute; reflexivity.
Defined.

(** C4 fails on the payload: the storage backend answers 503 with a body;
    [upload] raises [BinstarError('Error uploading package', 503)], in which
    the body does not occur; the body went to the log. *)
Lemma upload_storage_error_omits_body :
  let out := Demo.upload_with [Ok (Demo.staged Demo.form); Ok Demo.slow_down]
               None None PNone in
  text Demo.slow_down = "<Error><Code>SlowDown</Code></Error>"
  /\ fst out
     = Raise (ApiError BinstarError (PStr "Error uploading package") 503)
  /\ index 0 (text Demo.slow_down) "Error uploading package" = None
  /\ log_lines (trace (snd out)) = [text Demo.slow_down; ""; ""].
Proof.
  repeat split; vm_compute; reflexivity.
Qed.

(** * The further properties at concrete inputs *)

(** Two 404 answers that differ in headers and text, in two worlds. *)
Lemma check_response_outcome_independent_witness :
  fst (_check_response (E := Demo.env []) Demo.not_found_object [200] Demo.w0)
  = fst (_check_response (E := Demo.env []) Demo.not_found_newer [200]
           (mkWorld 7 [EvLog "x"] (mkFile [] 0 false))).
Proof.
  apply (check_response_outcome_independent (E := Demo.env []));
    reflexivity.
Defined.

(** [attrs={'summary': 'old', 'os': 'osx'}]: the summary is replaced, the
    other key is kept. *)
Lemma add_package_payload_witness :
  exists pa : gmap string pyval,
    pa !! "summary" = Some (PStr "new")
    /\ pa !! "os" = Some (PStr "osx")
    /\ length (requests_sent (trace (snd
          (Demo.add_package_with [] (PDict Demo.old_attrs))))) = 1%nat.
Proof.
  destruct (add_package_payload (E := Demo.env []) Demo.client "u" "p"
              (PStr "new") (PStr "BSD") (PBool true) PNone
              (PDict Demo.old_attrs) Demo.old_attrs
              Demo.w0 ltac:(vm_compute; reflexivity))
    as (pa & Hreq & Hsum & _ & Hframe & _).
  exists pa. split; [exact Hsum|]. split.
  - rewrite (Hframe "os") by discriminate. vm_compute. reflexivity.
  - unfold Demo.add_package_with. rewrite Hreq. reflexivity.
Defined.

(** [attrs=['os']], a non-empty list. *)
Lemma add_package_attrs_not_dict_witness :
  exists msg,
    Demo.add_package_with [] (PList [PStr "os"])
    = (Raise (TypeError msg), Demo.w0).
Proof.
  apply (add_package_attrs_not_dict (E := Demo.env [])); reflexivity.
Defined.

Lemma download_redirect_without_location_witness :
  let out := Demo.download_with [Ok Demo.redirect_nowhere] None in
  fst out = Raise (KeyError "location") /\ served (snd out) = 1%nat.
Proof.
  apply (download_redirect_without_location
           (E := Demo.env [Ok Demo.redirect_nowhere])
           Demo.client "u" "p" "1.0" "p-1.0.tar.bz2" None Demo.w0
           Demo.redirect_nowhere);
    reflexivity.
Defined.

(** The redirect target answers 500: the handle is returned all the same. *)
Lemma download_redirect_unchecked_witness :
  let out := Demo.download_with
               [Ok Demo.redirect; Ok (Demo.text_response 500 "oops")] None in
  fst out = Ok (Some (Demo.text_response 500 "oops"))
  /\ served (snd out) = 2%nat
  /\ last (trace (snd out))
     = Some (EvHttp (mkRequest false "GET" (PStr "https://cdn/x") None ∅
                               true true None None)
                    (Ok (Demo.text_response 500 "oops"))).
Proof.
  apply (download_redirect_unchecked
           (E := Demo.env [Ok Demo.redirect;
                           Ok (Demo.text_response 500 "oops")])
           Demo.client "u" "p" "1.0" "p-1.0.tar.bz2" None Demo.w0
           Demo.redirect (Demo.text_response 500 "oops") "https://cdn/x");
    reflexivity.
Defined.

(** The stage POST answered 200 with a body that is not JSON. *)
Lemma upload_malformed_stage_answer_witness :
  let out := Demo.upload_with [Ok (Demo.text_response 200 "<html/>")]
               None None PNone in
  fst out = Raise (ValueError "No JSON object could be decoded")
  /\ served (snd out) = 1%nat
  /\ hash_calls (trace (snd out)) = [].
Proof.
  apply (proj1 (upload_malformed_stage_answer
           (E := Demo.env [Ok (Demo.text_response 200 "<html/>")])
           Demo.client "u" "p" "1.0" "p-1.0.tar.bz2" (PStr "conda") (PStr "")
           None None PNone PNone (PTuple [PStr "main"]) Demo.w0
           (Demo.text_response 200 "<html/>")
           (or_introl eq_refl) eq_refl eq_refl)).
  reflexivity.
Defined.

(** ['form_data'] is a list. *)
Lemma upload_form_data_not_dict_witness :
  let out := Demo.upload_with [Ok Demo.staged_form_list] None None PNone in
  (exists msg, fst out = Raise (TypeError msg))
  /\ hash_calls (trace (snd out)) = [None]
  /\ encoder_calls (trace (snd out)) = []
  /\ served (snd out) = 1%nat.
Proof.
  apply (upload_form_data_not_dict
           (E := Demo.env [Ok Demo.staged_form_list])
           Demo.client "u" "p" "1.0" "p-1.0.tar.bz2" (PStr "conda") (PStr "")
           None PNone PNone (PTuple [PStr "main"]) Demo.w0
           Demo.staged_form_list
           (list_to_map [("post_url", PStr "https://s3/x");
                         ("form_data", PList []);
                         ("dist_id", PStr "abc")])
           (PStr "https://s3/x") (PList [])
           "d41d8cd98f00b204e9800998ecf8427e" "1B2M2Y8AsgTpgAmY7PhCfg==" 0
           (fd Demo.w0)).
  - left; reflexivity.
  - reflexivity.
  - reflexivity.
  - reflexivity.
  - vm_compute; reflexivity.
  - vm_compute; reflexivity.
  - reflexivity.
  - reflexivity.
Defined.

(** The connection to the storage breaks. *)
Lemma upload_storage_transport_failure_witness :
  let out := Demo.upload_with
               [Ok (Demo.staged Demo.form);
                Raise (RequestException "connection reset")] None None PNone in
  fst out = Raise (RequestException "connection reset")
  /\ log_lines (trace (snd out)) = []
  /\ served (snd out) = 2%nat.
Proof.
  apply (upload_storage_transport_failure
           (E := Demo.env [Ok (Demo.staged Demo.form);
                           Raise (RequestException "connection reset")])
           Demo.client "u" "p" "1.0" "p-1.0.tar.bz2" (PStr "conda") (PStr "")
           None None PNone PNone (PTuple [PStr "main"]) Demo.w0).
  - vm_compute; lia.
  - reflexivity.
Defined.


(** The commit POST is refused with 409 and an error message. *)
Lemma upload_commit_exchange_witness :
  let out := Demo.upload_with
               [Ok (Demo.staged Demo.form); Ok (Demo.text_response 201 "");
                Ok (Demo.json_response 409
                      (PDict {["error" := PStr "already committed"]}))]
               None None PNone in
  served (snd out) = 3%nat
  /\ exists msg, fst out = Raise (ApiError Conflict msg 409).
Proof.
  destruct (upload_commit_exchange
           (E := Demo.env
                   [Ok (Demo.staged Demo.form); Ok (Demo.text_response 201 "");
                    Ok (Demo.json_response 409
                          (PDict {["error" := PStr "already committed"]}))])
           Demo.client "u" "p" "1.0" "p-1.0.tar.bz2" (PStr "conda") (PStr "")
           None None PNone PNone (PTuple [PStr "main"]) Demo.w0
           (Demo.staged Demo.form) (Demo.text_response 201 "")
           (list_to_map [("post_url", PStr "https://s3/x");
                         ("form_data", PDict Demo.form);
                         ("dist_id", PStr "abc")])
           (PStr "abc")
           ltac:(vm_compute; lia) eq_refl eq_refl eq_refl eq_refl
           ltac:(vm_compute; reflexivity)) as [Hserved Hcommit].
  split; [exact Hserved|].
  apply (proj2 Hcommit).
  - discriminate.
  - intros v [= <-]. reflexivity.
Defined.

(** The storage request of a run that reaches the storage. *)
Lemma upload_storage_request_witness :
  let out := Demo.upload_with [Ok (Demo.staged Demo.form); Ok Demo.slow_down]
               None None PNone in
  exists rq : request,
    requests_sent (trace (snd out)) !! 1%nat = Some rq
    /\ via_session rq = false /\ method rq = "POST"
    /\ timeout rq = Some 36000
    /\ verify rq = Some true
    /\ url rq = PStr "https://s3/x".
Proof.
  destruct (upload_storage_request
           (E := Demo.env [Ok (Demo.staged Demo.form); Ok Demo.slow_down])
           Demo.client "u" "p" "1.0" "p-1.0.tar.bz2" (PStr "conda") (PStr "")
           None None PNone PNone (PTuple [PStr "main"]) Demo.w0
           ltac:(vm_compute; lia))
    as (rq & Hrq & Hs & Hm & Ht & Hv & Hu).
  exists rq. repeat split; trivial.
  apply (Hu (Demo.staged Demo.form)
            (list_to_map [("post_url", PStr "https://s3/x");
                          ("form_data", PDict Demo.form);
                          ("dist_id", PStr "abc")])
            (PStr "https://s3/x")); reflexivity.
Defined.

(** The scenario of a complete upload. *)
Lemma upload_succeeds_witness :
  let out := Demo.upload_with
               [Ok (Demo.staged Demo.form); Ok (Demo.text_response 201 "");
                Ok (Demo.json_response 200 (PDict {["id" := PStr "release1"]}))]
               None None PNone in
  fst out = Ok (PDict {["id" := PStr "release1"]})
  /\ served (snd out) = 3%nat.
Proof.
  apply (upload_succeeds
           (E := Demo.env
                   [Ok (Demo.staged Demo.form); Ok (Demo.text_response 201 "");
                    Ok (Demo.json_response 200
                          (PDict {["id" := PStr "release1"]}))])
           Demo.client "u" "p" "1.0" "p-1.0.tar.bz2" (PStr "conda") (PStr "")
           None PNone PNone (PTuple [PStr "main"]) Demo.w0
           (Demo.staged Demo.form) (Demo.text_response 201 "")
           (Demo.json_response 200 (PDict {["id" := PStr "release1"]}))
           (list_to_map [("post_url", PStr "https://s3/x");
                         ("form_data", PDict Demo.form);
                         ("dist_id", PStr "abc")])
           Demo.form (PStr "https://s3/x") (PStr "abc")
           (PDict {["id" := PStr "release1"]})
           "d41d8cd98f00b204e9800998ecf8427e" "1B2M2Y8AsgTpgAmY7PhCfg==" 0
           (fd Demo.w0)).
  - left; reflexivity.
  - reflexivity.
  - reflexivity.
  - reflexivity.
  - vm_compute; reflexivity.
  - vm_compute; reflexivity.
  - vm_compute; reflexivity.
  - reflexivity.
  - reflexivity.
  - reflexivity.
  - reflexivity.
  - reflexivity.
  - reflexivity.
Defined.
